(** * Recipe API: authentication and ownership, checked against the handlers

    The repository holds several variants of one REST service:
    - [Api]: the single serverless handler of [api/index.js];
    - [Express]: the MongoDB-backed Express application;
    - [Fn]: the one-file-per-route functions ([api/auth-login.js],
      [api/recipes.js] and the register function);
    - [Mem]: the in-memory Express application keeping [users] and
      [recipes] in two arrays.

    Every handler is embedded as a function from the request and the state
    of the store to a response and the new state.  Third-party primitives
    (the signed-token library, the password hashing library, what the
    database does with update operators) are fields of the class
    [Primitives]; MongoDB collections are lists of documents in
    insertion order.  [Server] holds the two routes that only the
    stand-alone server has.  CORS headers, logging and the Swagger pages
    are left out. *)

From Stdlib Require Import ZArith String Ascii DecimalString.
From stdpp Require Import base decidable option list strings sorting.

Local Open Scope string_scope.
Local Open Scope Z_scope.

Set Warnings "-register-all".

(** ** JavaScript helpers *)

Module Js.

(** [s.split(c)] for a one-character separator. *)
Fixpoint split (sep : ascii) (s : string) : list string :=
  match s with
  | EmptyString => [EmptyString]
  | String c rest =>
      if Ascii.eqb c sep then EmptyString :: split sep rest
      else match split sep rest with
           | h :: t => String c h :: t
           | [] => [String c EmptyString]
           end
  end.

(** A value that is a string or [undefined], when it is truthy: [!v] is
    [truthy v = None]. *)
Definition truthy (v : option string) : option string :=
  match v with
  | Some s => if String.eqb s EmptyString then None else Some s
  | None => None
  end.

(** White space and line ends among the characters below 256. *)
Definition is_space (c : ascii) : bool :=
  let n := N_of_ascii c in
  (N.eqb n 32 || N.eqb n 160 || (N.leb 9 n && N.leb n 13))%N.

Fixpoint trim_start (s : string) : string :=
  match s with
  | String c rest => if is_space c then trim_start rest else s
  | EmptyString => s
  end.

Definition digit (radix : Z) (c : ascii) : option Z :=
  let n := Z.of_N (N_of_ascii c) in
  let v := if (48 <=? n) && (n <=? 57) then n - 48
           else if (97 <=? n) && (n <=? 102) then n - 87
           else if (65 <=? n) && (n <=? 70) then n - 55
           else 16 in
  if v <? radix then Some v else None.

(** The longest prefix of radix digits, as a number; [None] when empty. *)
Fixpoint digits (radix : Z) (acc : option Z) (s : string) : option Z :=
  match s with
  | String c rest =>
      match digit radix c with
      | Some d => digits radix (Some (radix * default 0 acc + d)) rest
      | None => acc
      end
  | EmptyString => acc
  end.

(** [Number.MAX_SAFE_INTEGER], 2^53 - 1. *)
Definition MAX_SAFE_INTEGER : Z := 9007199254740991.

(** [parseInt(s)] without a radix argument; [None] is [NaN].  Numbers are
    exact integers here, where JavaScript has doubles: the two agree as
    long as the numbers read and computed stay within
    [MAX_SAFE_INTEGER], and statements about numbers sent back to the
    client assume that much. *)
Definition parseInt (s : string) : option Z :=
  let s1 := trim_start s in
  let '(sign, s2) :=
    match s1 with
    | String "-" r => (-1, r)
    | String "+" r => (1, r)
    | _ => (1, s1)
    end in
  let '(radix, s3) :=
    match s2 with
    | String "0" (String "x" r) => (16, r)
    | String "0" (String "X" r) => (16, r)
    | _ => (10, s2)
    end in
  Z.mul sign <$> digits radix None s3.

(** [parseInt(q) || d] for a query parameter that is a string or absent:
    [NaN] and [0] are falsy. *)
Definition parseInt_or (q : option string) (d : Z) : Z :=
  match q ≫= parseInt with
  | Some n => if n =? 0 then d else n
  | None => d
  end.

(** [Math.ceil(a / b)] on integers, [b] not zero. *)
Definition ceil_div (a b : Z) : Z := - ((- a) / b).

(** [n.toString()] for an integer. *)
Definition toString (n : Z) : string := NilZero.string_of_int (Z.to_int n).

(** Strings are sequences of characters below 256.  For a string of
    ASCII characters, [String.length] is the [length] JavaScript gives it
    however the request was encoded. *)
Fixpoint is_ascii (s : string) : bool :=
  match s with
  | EmptyString => true
  | String c rest => (N_of_ascii c <? 128)%N && is_ascii rest
  end.

(** [s.includes(c)] for one character. *)
Fixpoint includes (c : ascii) (s : string) : bool :=
  match s with
  | EmptyString => false
  | String c' rest => Ascii.eqb c' c || includes c rest
  end.

End Js.

(** ** JSON values *)

Module Json.

(** A value parsed from JSON, or [undefined].  Numbers are integers. *)
Inductive t :=
| Undefined
| Null
| Bool (b : bool)
| Num (n : Z)
| Str (s : string)
| Arr (items : list t)
| Obj (properties : list (string * t)).

(** An object: its properties in insertion order. *)
Definition obj : Type := list (string * t).

(** [o.k] *)
Definition get (k : string) (o : obj) : t :=
  match List.find (λ p, String.eqb (fst p) k) o with
  | Some p => snd p
  | None => Undefined
  end.

(** [o.k = v] *)
Fixpoint set (k : string) (v : t) (o : obj) : obj :=
  match o with
  | [] => [(k, v)]
  | (k', v') :: rest =>
      if String.eqb k' k then (k, v) :: rest else (k', v') :: set k v rest
  end.

(** [{ ...a, ...b }] *)
Definition spread (a b : obj) : obj :=
  fold_left (λ acc p, set (fst p) (snd p) acc) b a.

(** [a === b].  Arrays and objects are equal only to themselves, and two
    values that come from different requests are never the same array or
    object. *)
Definition strict_eq (a b : t) : bool :=
  match a, b with
  | Undefined, Undefined => true
  | Null, Null => true
  | Bool x, Bool y => Bool.eqb x y
  | Num x, Num y => x =? y
  | Str x, Str y => String.eqb x y
  | _, _ => false
  end.

Definition of_string (v : option string) : t :=
  match v with
  | Some s => Str s
  | None => Undefined
  end.

(** Truthiness: [!v] is [negb (truthy v)]. *)
Definition truthy (v : t) : bool :=
  match v with
  | Undefined | Null => false
  | Bool b => b
  | Num n => negb (n =? 0)
  | Str s => negb (String.eqb s EmptyString)
  | Arr _ | Obj _ => true
  end.

End Json.

(** ** Errors thrown inside a handler *)

(** [Error m] is [new Error(m)] thrown by the handler's own code; the other
    constructors are errors raised by the libraries, whose messages are not
    modelled. *)
Inductive exn :=
| Error (message : string)
| TypeError
| CastError
| ValidationError
| MongoError.

Definition throws (A : Type) : Type := exn + A.

Definition bind {A B} (m : throws A) (k : A → throws B) : throws B :=
  match m with
  | inl e => inl e
  | inr a => k a
  end.

Notation "'do' x <- m ; k" := (bind m (fun x => k))
  (at level 10, x pattern, m at level 100, k at level 200).

(** ** Request bodies and documents *)

(** A JSON request body.  Its plain keys are read at the types the API
    documents for them: [None] is an absent key, and a key sent as [null]
    or with a value of another type is not represented.  Plain keys that no
    schema and no handler knows are dropped by Mongoose and left out.
    [operators] holds the keys that start with [$] ([$set], [$unset],
    [$inc], [$push], ...) with their values, in the order sent: Mongoose
    passes those on to the database as update operators. *)
Module Body.
Record t := Parsed {
  username : option string;
  password : option string;
  title : option string;
  ingredients : option (list string);
  instructions : option string;
  cookingTime : option Z;
  servings : option Z;
  createdBy : option string;
  createdAt : option Z;
  operators : Json.obj
}.
(** A body of plain keys. *)
Definition Make (username password title : option string)
    (ingredients : option (list string)) (instructions : option string)
    (cookingTime servings : option Z) (createdBy : option string)
    (createdAt : option Z) : t :=
  Parsed username password title ingredients instructions cookingTime servings
         createdBy createdAt [].
Definition empty : t := Make None None None None None None None None None.
End Body.

Module User.
Record t := Make {
  _id : string;
  username : string;
  password : string
}.
End User.

Module Recipe.
Record t := Make {
  _id : string;
  title : string;
  ingredients : list string;
  instructions : string;
  cookingTime : option Z;
  servings : option Z;
  createdBy : option string;
  createdAt : Z
}.
End Recipe.

Record db := Db {
  users : list User.t;
  recipes : list Recipe.t
}.

(** ** Tokens and password hashing *)

(** The payload of a signed token, a JSON object.  The serverless handler
    and the Express application sign [{userId, username}], the login
    function signs [{id}], the in-memory application signs [{username}]. *)
Definition claims : Type := Json.obj.

Inductive verdict :=
| Verified (c : claims)
| BadSignature
| Expired.

Class Primitives := {
  (** [jwt.sign(payload, secret, {expiresIn})] at a given time. *)
  jwt_sign : claims → Z → string → string;
  (** [jwt.verify(token, secret)] at a given time. *)
  jwt_verify : string → Z → verdict;
  (** [bcrypt.hash(password, rounds)] with the salt it draws. *)
  bcrypt_hash : string → nat → string → string;
  bcrypt_compare : string → string → bool;
  (** What the database makes of a document under an update that carries
      operators, at a given time: the document as it is afterwards, or the
      error raised. *)
  update_operators : Body.t → Z → Recipe.t → throws Recipe.t
}.

(** What a request cannot see: the clock, the identifier the driver gives
    the next document, the salt drawn by the next hash, and whether the
    database can be reached. *)
Record world := World {
  now : Z;
  fresh : string;
  salt : string;
  connection : option exn
}.

(** [authHeader && authHeader.split(' ')[1]], with [!token] as [None]. *)
Definition bearer (authorization : option string) : option string :=
  a ← authorization;
  Js.truthy (Js.split " " a !! 1%nat).

(** ** MongoDB collections through Mongoose *)

Module ObjectId.

Definition is_hex (c : ascii) : bool :=
  match Js.digit 16 c with Some _ => true | None => false end.

Definition lower (c : ascii) : ascii :=
  let n := N_of_ascii c in
  if (N.leb 65 n && N.leb n 70)%N then ascii_of_N (n + 32) else c.

Fixpoint hex (s : string) : option string :=
  match s with
  | EmptyString => Some EmptyString
  | String c rest =>
      if is_hex c then String (lower c) <$> hex rest else None
  end.

(** An identifier is written as 24 hexadecimal characters; the cast gives
    the form [toString()] prints.  Some versions of the driver also take
    any string of 12 characters for an identifier; that form is not
    modelled, and nothing is stated about how such a string is answered. *)
Definition cast (s : string) : option string :=
  if (String.length s =? 24)%nat then hex s else None.

Definition isValid (s : string) : bool :=
  match cast s with Some _ => true | None => false end.

End ObjectId.

Module Mongo.

(** [connectToDatabase()] *)
Definition connect (w : world) : throws unit :=
  match connection w with
  | Some e => inl e
  | None => inr ()
  end.

(** [User.findOne({ username })] *)
Definition findOne (name : string) (us : list User.t) : option User.t :=
  List.find (λ u, bool_decide (User.username u = name)) us.

(** The first document with the identifier [o], and its position. *)
Definition index_of (o : string) (rs : list Recipe.t) : option (nat * Recipe.t) :=
  list_find (λ r, Recipe._id r = o) rs.

(** A value given for a path of type [ObjectId]: a string is cast,
    [undefined] and [null] leave the path empty, and [e] is the error for
    anything else.  (Only strings are cast.) *)
Definition reference (e : exn) (v : Json.t) : throws (option string) :=
  match v with
  | Json.Undefined | Json.Null => inr None
  | Json.Str u =>
      match ObjectId.cast u with
      | Some o => inr (Some o)
      | None => inl e
      end
  | _ => inl e
  end.

(** [Recipe.findById(id)]: a cast error when [id] is no identifier. *)
Definition findById (i : string) (rs : list Recipe.t) : throws (option Recipe.t) :=
  match ObjectId.cast i with
  | None => inl CastError
  | Some o => inr (snd <$> index_of o rs)
  end.

(** The fields of the body that are paths of the recipe schema, written
    over the document ([$set]). *)
Definition set_fields (o : option string) (b : Body.t) (r : Recipe.t) : Recipe.t :=
  Recipe.Make (Recipe._id r)
    (default (Recipe.title r) (Body.title b))
    (default (Recipe.ingredients r) (Body.ingredients b))
    (default (Recipe.instructions r) (Body.instructions b))
    (from_option Some (Recipe.cookingTime r) (Body.cookingTime b))
    (from_option Some (Recipe.servings r) (Body.servings b))
    (from_option Some (Recipe.createdBy r) o)
    (default (Recipe.createdAt r) (Body.createdAt b)).

(** An update cannot change the [_id] of a document. *)
Definition keep_id (r r' : Recipe.t) : Recipe.t :=
  Recipe.Make (Recipe._id r) (Recipe.title r') (Recipe.ingredients r')
    (Recipe.instructions r') (Recipe.cookingTime r') (Recipe.servings r')
    (Recipe.createdBy r') (Recipe.createdAt r').

(** [Recipe.findByIdAndUpdate(id, body, { new: true })]; the result is the
    updated document, or [null].  A body of plain keys is a [$set] of its
    schema paths: the update is cast first (a [createdBy] that is no
    identifier is a cast error), then written.  A body with operators is
    for the database to apply, plain keys included. *)
Definition findByIdAndUpdate `{Primitives} (w : world) (i : string) (b : Body.t)
    (rs : list Recipe.t) : throws (option Recipe.t * list Recipe.t) :=
  match ObjectId.cast i with
  | None => inl CastError
  | Some o =>
      match Body.operators b with
      | [] =>
          do owner <- reference CastError (Json.of_string (Body.createdBy b));
          match index_of o rs with
          | Some (k, r) =>
              let r' := set_fields owner b r in inr (Some r', <[k := r']> rs)
          | None => inr (None, rs)
          end
      | _ :: _ =>
          match index_of o rs with
          | Some (k, r) =>
              do r' <- update_operators b (now w) r;
              let r' := keep_id r r' in inr (Some r', <[k := r']> rs)
          | None => inr (None, rs)
          end
      end
  end.

(** [Recipe.findByIdAndDelete(id)] *)
Definition findByIdAndDelete (i : string) (rs : list Recipe.t) : throws (list Recipe.t) :=
  match ObjectId.cast i with
  | None => inl CastError
  | Some o =>
      match index_of o rs with
      | Some (k, _) => inr (delete k rs)
      | None => inr rs
      end
  end.

(** [.populate('createdBy', 'username')]: the owner reference becomes the
    owner's [{_id, username}], or [null] when there is no such user. *)
Definition populate (us : list User.t) (r : Recipe.t) : Recipe.t * option (string * string) :=
  (r, c ← Recipe.createdBy r;
      u ← List.find (λ u, bool_decide (User._id u = c)) us;
      Some (User._id u, User.username u)).

(** [.sort({ createdAt: -1 })].  The database promises no order between
    documents of equal [createdAt]; [sort] keeps them in insertion order. *)
Definition newest_first (a b : Recipe.t) : Prop :=
  Recipe.createdAt b ≤ Recipe.createdAt a.

#[global] Instance newest_first_dec : RelDecision newest_first :=
  λ a b, decide (Recipe.createdAt b ≤ Recipe.createdAt a).

Definition sort (rs : list Recipe.t) : list Recipe.t := merge_sort newest_first rs.

(** [.skip(skip).limit(limit)]: the server refuses a negative skip; a
    negative limit is used by its absolute value. *)
Definition window (skip limit : Z) (rs : list Recipe.t) : throws (list Recipe.t) :=
  if skip <? 0 then inl MongoError
  else inr (take (Z.to_nat (Z.abs limit)) (drop (Z.to_nat skip) rs)).

End Mongo.

(** ** The serverless handler, [api/index.js] *)

Module Api.

(** [path] is the path name of the URL, [page] and [limit] are
    [req.query.page] and [req.query.limit]. *)
Record request := Request {
  method : string;
  path : string;
  authorization : option string;
  page : option string;
  limit : option string;
  body : Body.t
}.

Definition populated : Type := Recipe.t * option (string * string).

Inductive reply :=
| Ended
| Welcome
| Health (timestamp : Z)
| Err (error : string)
| Internal (error : exn)
| Registered (userId : string)
| LoggedIn (token : string) (id username : string)
| Listing (recipes : list populated) (page limit total pages : Z)
| Created (recipe : Recipe.t)
| Found (recipe : populated)
| Updated (recipe : option Recipe.t)
| Deleted.

Record response := Response {
  status : Z;
  json : reply
}.

(** The claims of the bearer token, or the error the handler throws. *)
Definition authenticateToken `{Primitives} (w : world) (req : request) : throws claims :=
  match bearer (authorization req) with
  | None => inl (Error "Access token required")
  | Some token =>
      match jwt_verify token (now w) with
      | Verified user => inr user
      | _ => inl (Error "Invalid token")
      end
  end.

(** [POST /api/auth/register] *)
Definition register `{Primitives} (w : world) (req : request) (s : db)
  : throws (response * db) :=
  match Js.truthy (Body.username (body req)), Js.truthy (Body.password (body req)) with
  | Some username, Some password =>
      if (String.length password <? 6)%nat
      then inr (Response 400 (Err "Password must be at least 6 characters"), s)
      else match Mongo.findOne username (users s) with
      | Some _ => inr (Response 400 (Err "Username already exists"), s)
      | None =>
          let hashedPassword := bcrypt_hash password 12 (salt w) in
          let user := User.Make (fresh w) username hashedPassword in
          inr (Response 201 (Registered (User._id user)),
               Db (users s ++ [user]) (recipes s))
      end
  | _, _ => inr (Response 400 (Err "Username and password are required"), s)
  end.

(** [POST /api/auth/login] *)
Definition login `{Primitives} (w : world) (req : request) (s : db)
  : throws (response * db) :=
  match Js.truthy (Body.username (body req)), Js.truthy (Body.password (body req)) with
  | Some username, Some password =>
      match Mongo.findOne username (users s) with
      | Some user =>
          if bcrypt_compare password (User.password user)
          then
            let token :=
              jwt_sign [("userId", Json.Str (User._id user));
                        ("username", Json.Str (User.username user))]
                       (now w) "24h" in
            inr (Response 200 (LoggedIn token (User._id user) (User.username user)), s)
          else inr (Response 401 (Err "Invalid credentials"), s)
      | None => inr (Response 401 (Err "Invalid credentials"), s)
      end
  | _, _ => inr (Response 400 (Err "Username and password are required"), s)
  end.

(** [GET /api/recipes] *)
Definition list_recipes (req : request) (s : db) : throws (response * db) :=
  let page := Js.parseInt_or (page req) 1 in
  let limit := Js.parseInt_or (limit req) 10 in
  let skip := (page - 1) * limit in
  let total := Z.of_nat (length (recipes s)) in
  do found <- Mongo.window skip limit (Mongo.sort (recipes s));
  inr (Response 200 (Listing (Mongo.populate (users s) <$> found)
                             page limit total (Js.ceil_div total limit)), s).

(** [POST /api/recipes] *)
Definition create `{Primitives} (w : world) (req : request) (s : db)
  : throws (response * db) :=
  do user <- authenticateToken w req;
  match Js.truthy (Body.title (body req)), Js.truthy (Body.instructions (body req)) with
  | Some title, Some instructions =>
      do owner <- Mongo.reference ValidationError (Json.get "userId" user);
      let recipe :=
        Recipe.Make (fresh w) title (default [] (Body.ingredients (body req)))
          instructions (Body.cookingTime (body req)) (Body.servings (body req))
          owner (now w) in
      inr (Response 201 (Created recipe), Db (users s) (recipes s ++ [recipe]))
  | _, _ => inr (Response 400 (Err "Title and instructions are required"), s)
  end.

(** [urlPath.split('/')[3]], when [ObjectId.isValid] accepts it. *)
Definition valid_id (urlPath : string) : option string :=
  i ← Js.split "/" urlPath !! 3%nat;
  if ObjectId.isValid i then Some i else None.

(** [GET /api/recipes/:id] *)
Definition get_recipe (req : request) (s : db) : throws (response * db) :=
  match valid_id (path req) with
  | None => inr (Response 400 (Err "Invalid recipe ID"), s)
  | Some i =>
      do found <- Mongo.findById i (recipes s);
      match found with
      | None => inr (Response 404 (Err "Recipe not found"), s)
      | Some recipe => inr (Response 200 (Found (Mongo.populate (users s) recipe)), s)
      end
  end.

(** [recipe.createdBy.toString()], a type error when the recipe has no
    [createdBy]. *)
Definition owner_string (recipe : Recipe.t) : throws string :=
  match Recipe.createdBy recipe with
  | Some c => inr c
  | None => inl TypeError
  end.

(** [PUT /api/recipes/:id] *)
Definition update `{Primitives} (w : world) (req : request) (s : db)
  : throws (response * db) :=
  do user <- authenticateToken w req;
  match valid_id (path req) with
  | None => inr (Response 400 (Err "Invalid recipe ID"), s)
  | Some i =>
      do found <- Mongo.findById i (recipes s);
      match found with
      | None => inr (Response 404 (Err "Recipe not found"), s)
      | Some recipe =>
          do owner <- owner_string recipe;
          if negb (Json.strict_eq (Json.Str owner) (Json.get "userId" user))
          then inr (Response 403 (Err "Not authorized"), s)
          else
            do (updatedRecipe, rs) <- Mongo.findByIdAndUpdate w i (body req) (recipes s);
            inr (Response 200 (Updated updatedRecipe), Db (users s) rs)
      end
  end.

(** [DELETE /api/recipes/:id] *)
Definition delete_recipe `{Primitives} (w : world) (req : request) (s : db)
  : throws (response * db) :=
  do user <- authenticateToken w req;
  match valid_id (path req) with
  | None => inr (Response 400 (Err "Invalid recipe ID"), s)
  | Some i =>
      do found <- Mongo.findById i (recipes s);
      match found with
      | None => inr (Response 404 (Err "Recipe not found"), s)
      | Some recipe =>
          do owner <- owner_string recipe;
          if negb (Json.strict_eq (Json.Str owner) (Json.get "userId" user))
          then inr (Response 403 (Err "Not authorized"), s)
          else
            do rs <- Mongo.findByIdAndDelete i (recipes s);
            inr (Response 200 Deleted, Db (users s) rs)
      end
  end.

(** The body of the [try] block, after the preflight check. *)
Definition route `{Primitives} (w : world) (req : request) (s : db)
  : throws (response * db) :=
  let method := method req in
  let urlPath := path req in
  if String.eqb method "GET" && String.eqb urlPath "/"
  then inr (Response 200 Welcome, s)
  else if String.eqb method "GET" && String.eqb urlPath "/api/health"
  then inr (Response 200 (Health (now w)), s)
  else
    do _ <- Mongo.connect w;
    if String.eqb method "POST" && String.eqb urlPath "/api/auth/register"
    then register w req s
    else if String.eqb method "POST" && String.eqb urlPath "/api/auth/login"
    then login w req s
    else if String.eqb method "GET" && String.eqb urlPath "/api/recipes"
    then list_recipes req s
    else if String.eqb method "POST" && String.eqb urlPath "/api/recipes"
    then create w req s
    else if String.eqb method "GET" && String.prefix "/api/recipes/" urlPath
    then get_recipe req s
    else if String.eqb method "PUT" && String.prefix "/api/recipes/" urlPath
    then update w req s
    else if String.eqb method "DELETE" && String.prefix "/api/recipes/" urlPath
    then delete_recipe w req s
    else inr (Response 404 (Err "Route not found"), s).

(** The [catch] block. *)
Definition rescue (e : exn) : response :=
  match e with
  | Error message =>
      if String.eqb message "Access token required" || String.eqb message "Invalid token"
      then Response 401 (Err message)
      else Response 500 (Internal e)
  | _ => Response 500 (Internal e)
  end.

(** [handler(req, res)]: the response sent and the store afterwards. *)
Definition handler `{Primitives} (w : world) (req : request) (s : db) : response * db :=
  if String.eqb (method req) "OPTIONS" then (Response 200 Ended, s)
  else match route w req s with
       | inr out => out
       | inl e => (rescue e, s)
       end.

(** The recipes a client reads off the answer to a list request. *)
Definition listed (r : response) : list populated :=
  match json r with
  | Listing recipes _ _ _ _ => recipes
  | _ => []
  end.

End Api.

(** ** The Express application on MongoDB *)

Module Express.

Import Api (reply, response, Response, owner_string).
Import Api (Err, Registered, LoggedIn, Created, Updated, Deleted).

(** [id] is [req.params.id]. *)
Record request := Request {
  authorization : option string;
  id : string;
  body : Body.t
}.

(** The middleware: [next] is the route handler behind it, called with the
    verified claims as [req.user]. *)
Definition authenticateToken `{Primitives} (w : world) (req : request)
    (next : claims → db → response * db) (s : db) : response * db :=
  match bearer (authorization req) with
  | None => (Response 401 (Err "Access token required"), s)
  | Some token =>
      match jwt_verify token (now w) with
      | Verified user => next user s
      | _ => (Response 403 (Err "Invalid token"), s)
      end
  end.

(** A [try] block whose [catch] answers with [rescue]. *)
Definition try (body : throws (response * db)) (rescue : exn → response) (s : db)
  : response * db :=
  match body with
  | inr out => out
  | inl e => (rescue e, s)
  end.

(** The two [catch] blocks of the routes. *)
Definition internal (_ : exn) : response :=
  Response 500 (Err "Internal server error").

Definition invalid_id (e : exn) : response :=
  match e with
  | CastError => Response 400 (Err "Invalid recipe ID")
  | _ => Response 500 (Err "Internal server error")
  end.

(** [app.post("/auth/register")] *)
Definition register `{Primitives} (w : world) (req : request) (s : db) : response * db :=
  try (do _ <- Mongo.connect w;
       match Js.truthy (Body.username (body req)), Js.truthy (Body.password (body req)) with
       | Some username, Some password =>
           if (String.length password <? 6)%nat
           then inr (Response 400 (Err "Password must be at least 6 characters long"), s)
           else match Mongo.findOne username (users s) with
           | Some _ => inr (Response 400 (Err "Username already exists"), s)
           | None =>
               let hashedPassword := bcrypt_hash password 12 (salt w) in
               let user := User.Make (fresh w) username hashedPassword in
               inr (Response 201 (Registered (User._id user)),
                    Db (users s ++ [user]) (recipes s))
           end
       | _, _ => inr (Response 400 (Err "Username and password are required"), s)
       end) internal s.

(** [app.post("/auth/login")] *)
Definition login `{Primitives} (w : world) (req : request) (s : db) : response * db :=
  try (do _ <- Mongo.connect w;
       match Js.truthy (Body.username (body req)), Js.truthy (Body.password (body req)) with
       | Some username, Some password =>
           match Mongo.findOne username (users s) with
           | None => inr (Response 401 (Err "Invalid credentials"), s)
           | Some user =>
               let isValidPassword := bcrypt_compare password (User.password user) in
               if negb isValidPassword
               then inr (Response 401 (Err "Invalid credentials"), s)
               else
                 let token :=
                   jwt_sign [("userId", Json.Str (User._id user));
                             ("username", Json.Str (User.username user))]
                            (now w) "24h" in
                 inr (Response 200 (LoggedIn token (User._id user) (User.username user)), s)
           end
       | _, _ => inr (Response 400 (Err "Username and password are required"), s)
       end) internal s.

(** [app.post("/recipes", authenticateToken)] *)
Definition post_recipe `{Primitives} (w : world) (req : request) : db → response * db :=
  authenticateToken w req (λ user s,
    try (do _ <- Mongo.connect w;
         match Js.truthy (Body.title (body req)), Js.truthy (Body.instructions (body req)) with
         | Some title, Some instructions =>
             do owner <- Mongo.reference ValidationError (Json.get "userId" user);
             let recipe :=
               Recipe.Make (fresh w) title (default [] (Body.ingredients (body req)))
                 instructions (Body.cookingTime (body req)) (Body.servings (body req))
                 owner (now w) in
             inr (Response 201 (Created recipe), Db (users s) (recipes s ++ [recipe]))
         | _, _ => inr (Response 400 (Err "Title and instructions are required"), s)
         end) internal s).

(** [app.put("/recipes/:id", authenticateToken)] *)
Definition put_recipe `{Primitives} (w : world) (req : request) : db → response * db :=
  authenticateToken w req (λ user s,
    try (do _ <- Mongo.connect w;
         do found <- Mongo.findById (id req) (recipes s);
         match found with
         | None => inr (Response 404 (Err "Recipe not found"), s)
         | Some recipe =>
             do owner <- owner_string recipe;
             if negb (Json.strict_eq (Json.Str owner) (Json.get "userId" user))
             then inr (Response 403 (Err "Not authorized to update this recipe"), s)
             else
               do (updatedRecipe, rs) <- Mongo.findByIdAndUpdate w (id req) (body req) (recipes s);
               inr (Response 200 (Updated updatedRecipe), Db (users s) rs)
         end) invalid_id s).

(** [app.delete("/recipes/:id", authenticateToken)] *)
Definition delete_recipe `{Primitives} (w : world) (req : request) : db → response * db :=
  authenticateToken w req (λ user s,
    try (do _ <- Mongo.connect w;
         do found <- Mongo.findById (id req) (recipes s);
         match found with
         | None => inr (Response 404 (Err "Recipe not found"), s)
         | Some recipe =>
             do owner <- owner_string recipe;
             if negb (Json.strict_eq (Json.Str owner) (Json.get "userId" user))
             then inr (Response 403 (Err "Not authorized to delete this recipe"), s)
             else
               do rs <- Mongo.findByIdAndDelete (id req) (recipes s);
               inr (Response 200 Deleted, Db (users s) rs)
         end) invalid_id s).

(** [app.get("/recipes")]; [page] and [limit] are the query parameters. *)
Definition get_recipes (w : world) (page limit : option string) (s : db) : response * db :=
  try (do _ <- Mongo.connect w;
       let page := Js.parseInt_or page 1 in
       let limit := Js.parseInt_or limit 10 in
       let skip := (page - 1) * limit in
       let total := Z.of_nat (length (recipes s)) in
       do found <- Mongo.window skip limit (Mongo.sort (recipes s));
       inr (Response 200 (Api.Listing (Mongo.populate (users s) <$> found)
                                      page limit total (Js.ceil_div total limit)), s))
      internal s.

(** [app.get("/recipes/:id")] *)
Definition get_recipe (w : world) (req : request) (s : db) : response * db :=
  try (do _ <- Mongo.connect w;
       do found <- Mongo.findById (id req) (recipes s);
       match found with
       | None => inr (Response 404 (Err "Recipe not found"), s)
       | Some recipe => inr (Response 200 (Api.Found (Mongo.populate (users s) recipe)), s)
       end) invalid_id s.

End Express.

(** ** The one-file-per-route functions *)

Module Fn.

(** The recipe schema of [utils/models/Recipe.js]. *)
Record recipe := Recipe {
  _id : string;
  title : option string;
  ingredients : list string;
  instructions : option string;
  createdBy : option string
}.

Record store := Store {
  users : list User.t;
  recipes : list recipe
}.

Record request := Request {
  method : string;
  authorization : option string;
  body : Body.t
}.

Inductive reply :=
| Err (error : string)
| Message (message : string)
| Token (token : string)
| Recipes (found : list recipe)
| Ended.

Record response := Response {
  status : Z;
  json : reply
}.

(** Modelled from the spec: [utils/dbConnect] and the user model
    [utils/models/User] are not among the sources.  The store is one
    logical store reached by a blocking call (section 5), so [dbConnect()]
    connects or throws as [connectToDatabase()] does, and a user is the
    User of section 3, with the fields the other variants declare: an
    identifier, a unique [username] and the hashed [password]. *)
Definition dbConnect (w : world) : throws unit := Mongo.connect w.

(** [bcrypt.compare(password, hash)]; the library refuses a password that
    is not a string. *)
Definition compare `{Primitives} (password : option string) (hash : string) : throws bool :=
  match password with
  | Some p => inr (bcrypt_compare p hash)
  | None => inl (Error "Illegal arguments: undefined, string")
  end.

(** [api/auth-login.js].  Nothing catches what the handler throws. *)
Definition login `{Primitives} (w : world) (req : request) (s : store)
  : throws (response * store) :=
  do _ <- dbConnect w;
  if String.eqb (method req) "POST" then
    match Body.username (body req) ≫= (λ u, Mongo.findOne u (users s)) with
    | None => inr (Response 400 (Err "User not found"), s)
    | Some user =>
        do valid <- compare (Body.password (body req)) (User.password user);
        if negb valid then inr (Response 401 (Err "Invalid password"), s)
        else
          let token := jwt_sign [("id", Json.Str (User._id user))] (now w) "1h" in
          inr (Response 200 (Token token), s)
    end
  else inr (Response 405 Ended, s).

(** The register function. *)
Definition register `{Primitives} (w : world) (req : request) (s : store)
  : throws (response * store) :=
  do _ <- dbConnect w;
  if String.eqb (method req) "POST" then
    match Js.truthy (Body.username (body req)), Js.truthy (Body.password (body req)) with
    | Some username, Some password =>
        match Mongo.findOne username (users s) with
        | Some _ => inr (Response 400 (Err "Username already exists"), s)
        | None =>
            let hashed := bcrypt_hash password 10 (salt w) in
            let user := User.Make (fresh w) username hashed in
            inr (Response 200 (Message "User registered"),
                 Store (users s ++ [user]) (recipes s))
        end
    | _, _ => inr (Response 400 (Err "Missing fields"), s)
    end
  else inr (Response 405 Ended, s).


End Fn.

(** ** The in-memory Express application *)

Module Mem.

(** [let users = []; let recipes = [];] *)
Record state := State {
  users : list Json.obj;
  recipes : list Json.obj
}.

Record request := Request {
  authorization : option string;
  id : string;
  body : Json.obj
}.

(** [res.status(status)] followed by [json(value)], or by [send()]. *)
Record response := Response {
  status : Z;
  json : option Json.t
}.

Definition error (message : string) : option Json.t :=
  Some (Json.Obj [("error", Json.Str message)]).

Definition generateToken `{Primitives} (w : world) (payload : Json.obj) : string :=
  jwt_sign payload (now w) "1h".

Definition authenticateToken `{Primitives} (w : world) (req : request)
    (next : claims → state → response * state) (s : state) : response * state :=
  match bearer (authorization req) with
  | None => (Response 401 (error "No token provided"), s)
  | Some token =>
      match jwt_verify token (now w) with
      | Verified user => next user s
      | _ => (Response 403 (error "Invalid token"), s)
      end
  end.

(** [app.post('/auth/register')] *)
Definition register `{Primitives} (w : world) (req : request) (s : state) : response * state :=
  let username := Json.get "username" (body req) in
  let password := Json.get "password" (body req) in
  match List.find (λ u, Json.strict_eq (Json.get "username" u) username) (users s) with
  | Some _ => (Response 400 (error "Username already exists"), s)
  | None =>
      let token := generateToken w [("username", username)] in
      (Response 201 (Some (Json.Obj [("token", Json.Str token)])),
       State (users s ++ [[("username", username); ("password", password)]]) (recipes s))
  end.

(** [app.post('/auth/login')] *)
Definition login `{Primitives} (w : world) (req : request) (s : state) : response * state :=
  let username := Json.get "username" (body req) in
  let password := Json.get "password" (body req) in
  match List.find (λ u, Json.strict_eq (Json.get "username" u) username
                        && Json.strict_eq (Json.get "password" u) password) (users s) with
  | None => (Response 401 (error "Invalid credentials"), s)
  | Some _ =>
      let token := generateToken w [("username", username)] in
      (Response 200 (Some (Json.Obj [("token", Json.Str token)])), s)
  end.

(** [app.post('/recipes', authenticateToken)]; the identifier is
    [Date.now().toString()]. *)
Definition post_recipe `{Primitives} (w : world) (req : request) : state → response * state :=
  authenticateToken w req (λ user s,
    let newRecipe :=
      [("id", Json.Str (Js.toString (now w)));
       ("title", Json.get "title" (body req));
       ("ingredients", Json.get "ingredients" (body req));
       ("instructions", Json.get "instructions" (body req));
       ("createdBy", Json.get "username" user)] in
    (Response 201 (Some (Json.Obj newRecipe)), State (users s) (recipes s ++ [newRecipe]))).

(** [app.get('/recipes')] and [app.get('/recipes/:id')] *)
Definition get_recipes (req : request) (s : state) : response * state :=
  (Response 200 (Some (Json.Arr (Json.Obj <$> recipes s))), s).

(** [recipes.findIndex(r => r.id === id)] together with [recipes[index]]. *)
Definition findIndex (i : string) (rs : list Json.obj) : option (nat * Json.obj) :=
  list_find (λ r, Json.strict_eq (Json.get "id" r) (Json.Str i) = true) rs.

Definition get_recipe (req : request) (s : state) : response * state :=
  match findIndex (id req) (recipes s) with
  | None => (Response 404 (error "Recipe not found"), s)
  | Some (_, recipe) => (Response 200 (Some (Json.Obj recipe)), s)
  end.

(** [app.put('/recipes/:id', authenticateToken)]: the record becomes
    [{ ...recipes[index], ...req.body, id: req.params.id }]. *)
Definition put_recipe `{Primitives} (w : world) (req : request) : state → response * state :=
  authenticateToken w req (λ user s,
    match findIndex (id req) (recipes s) with
    | None => (Response 404 (error "Recipe not found"), s)
    | Some (index, recipe) =>
        if negb (Json.strict_eq (Json.get "createdBy" recipe) (Json.get "username" user))
        then (Response 403 (error "Not authorized to update this recipe"), s)
        else
          let updated :=
            Json.set "id" (Json.Str (id req)) (Json.spread recipe (body req)) in
          (Response 200 (Some (Json.Obj updated)),
           State (users s) (<[index := updated]> (recipes s)))
    end).

(** [app.delete('/recipes/:id', authenticateToken)] with
    [recipes.splice(index, 1)]. *)
Definition delete_recipe `{Primitives} (w : world) (req : request) : state → response * state :=
  authenticateToken w req (λ user s,
    match findIndex (id req) (recipes s) with
    | None => (Response 404 (error "Recipe not found"), s)
    | Some (index, recipe) =>
        if negb (Json.strict_eq (Json.get "createdBy" recipe) (Json.get "username" user))
        then (Response 403 (error "Not authorized to delete this recipe"), s)
        else (Response 204 None, State (users s) (delete index (recipes s)))
    end).

(** [app.post('/recipes/:id/reviews', authenticateToken)].  The review is
    pushed onto [recipe.reviews], which is first set to [[]] when it is
    falsy; when it is something else than an array the push throws, and
    Express answers the uncaught error with status 500 and a page that is
    not JSON. *)
Definition post_review `{Primitives} (w : world) (req : request) : state → response * state :=
  authenticateToken w req (λ user s,
    match findIndex (id req) (recipes s) with
    | None => (Response 404 (error "Recipe not found"), s)
    | Some (index, recipe) =>
        let reviews :=
          if Json.truthy (Json.get "reviews" recipe) then Json.get "reviews" recipe
          else Json.Arr [] in
        match reviews with
        | Json.Arr items =>
            let review :=
              Json.Obj [("id", Json.Str (Js.toString (now w)));
                        ("rating", Json.get "rating" (body req));
                        ("comment", Json.get "comment" (body req));
                        ("user", Json.get "username" user)] in
            let reviewed := Json.set "reviews" (Json.Arr (items ++ [review])) recipe in
            (Response 201 (Some (Json.Obj [("message", Json.Str "Review added successfully")])),
             State (users s) (<[index := reviewed]> (recipes s)))
        | _ => (Response 500 None, s)
        end
    end).

(** [app.get('/recipes/:id/reviews')] *)
Definition get_reviews (req : request) (s : state) : response * state :=
  match findIndex (id req) (recipes s) with
  | None => (Response 404 (error "Recipe not found"), s)
  | Some (_, recipe) =>
      let reviews := Json.get "reviews" recipe in
      (Response 200 (Some (if Json.truthy reviews then reviews else Json.Arr [])), s)
  end.

End Mem.

(** ** The stand-alone server *)

(** The Express application that connects once at start-up has two routes
    more than the one above. *)
Module Server.

Inductive reply :=
| Profile (id username : Json.t)
| Recipes (found : list Api.populated)
| Failed (error : string).

(** [app.get("/auth/profile", authenticateToken)], behind the middleware. *)
Definition profile (user : claims) : Z * reply :=
  (200, Profile (Json.get "userId" user) (Json.get "username" user)).

(** [app.get("/recipes/user/:userId")] *)
Definition user_recipes (userId : string) (s : db) : Z * reply :=
  match Mongo.reference CastError (Json.Str userId) with
  | inr owner =>
      (200, Recipes (Mongo.populate (users s) <$>
                       Mongo.sort (filter (λ r, Recipe.createdBy r = owner) (recipes s))))
  | inl CastError => (400, Failed "Invalid user ID")
  | inl _ => (500, Failed "Internal server error")
  end.

End Server.

(** ** Sample data *)

Module Sample.

Definition alice_id : string := "aaaaaaaaaaaaaaaaaaaaaaaa".
Definition bob_id : string := "bbbbbbbbbbbbbbbbbbbbbbbb".
Definition tea_id : string := "0123456789abcdef01234567".

Definition alice_claims : claims :=
  [("userId", Json.Str alice_id); ("username", Json.Str "alice"); ("id", Json.Str alice_id)].
Definition bob_claims : claims :=
  [("userId", Json.Str bob_id); ("username", Json.Str "bob"); ("id", Json.Str bob_id)].

(** A table of tokens, a transparent stand-in for the hash and a database
    that refuses update operators, to run the handlers on examples. *)
Definition table : Primitives := {|
  jwt_sign := λ payload _ _,
    match Json.get "username" payload, Json.get "id" payload with
    | Json.Str u, _ => u ++ ".jwt"
    | _, Json.Str i => i ++ ".jwt"
    | _, _ => "anonymous.jwt"
    end;
  jwt_verify := λ token _,
    if String.eqb token "alice.jwt"
    then Verified alice_claims
    else if String.eqb token "bob.jwt"
    then Verified bob_claims
    else if String.eqb token "old.jwt" then Expired
    else BadSignature;
  bcrypt_hash := λ password _ salt, "$2a$" ++ salt ++ "$" ++ password;
  bcrypt_compare := λ password hash,
    let n := String.length password in
    String.eqb (substring (String.length hash - S n) (S n) hash) ("$" ++ password);
  update_operators := λ _ _ _, inl MongoError
|}.

Definition w0 : world := World 1700000000000 "cccccccccccccccccccccccc" "salt" None.

Definition alice : User.t := User.Make alice_id "alice" "$2a$salt$secret1".
Definition bob : User.t := User.Make bob_id "bob" "$2a$salt$hunter22".

Definition tea : Recipe.t :=
  Recipe.Make tea_id "Tea" ["water"; "leaves"] "Boil water" (Some 5) None
              (Some alice_id) 1690000000000.

Definition s0 : db := Db [alice; bob] [tea].

Definition just (a : string) : Body.t :=
  Body.Make None None (Some a) None None None None None None.

(** The [n]-th recipe, for [n] below 100, created at time [n]. *)
Definition dish (n : nat) : Recipe.t :=
  let digits := NilZero.string_of_uint (Nat.to_uint n) in
  let pad := if (n <? 10)%nat then "d15c000000000000000000" ++ "0"
             else "d15c000000000000000000" in
  Recipe.Make (pad ++ digits) "Dish" [] "Cook" None None (Some alice_id) (Z.of_nat n).

Definition s25 : db := Db [alice; bob] (dish <$> seq 0 25).

(** Requests on the recipe [tea] with the token of [who]. *)
Definition put_tea (who : string) (b : Body.t) : Api.request :=
  Api.Request "PUT" ("/api/recipes/" ++ tea_id) (Some ("Bearer " ++ who ++ ".jwt"))
              None None b.

Definition delete_tea (who : string) : Api.request :=
  Api.Request "DELETE" ("/api/recipes/" ++ tea_id) (Some ("Bearer " ++ who ++ ".jwt"))
              None None Body.empty.

(** The same data in the in-memory application. *)
Definition m_tea : Json.obj :=
  [("id", Json.Str "1690000000000"); ("title", Json.Str "Tea");
   ("ingredients", Json.Arr [Json.Str "water"; Json.Str "leaves"]);
   ("instructions", Json.Str "Boil water"); ("createdBy", Json.Str "alice")].

Definition m0 : Mem.state :=
  Mem.State [[("username", Json.Str "alice"); ("password", Json.Str "secret1")];
             [("username", Json.Str "bob"); ("password", Json.Str "hunter22")]]
            [m_tea].

Definition mem_tea (who : string) (b : Json.obj) : Mem.request :=
  Mem.Request (Some ("Bearer " ++ who ++ ".jwt")) "1690000000000" b.

Definition credentials (name pass : string) : Json.obj :=
  [("username", Json.Str name); ("password", Json.Str pass)].

(** The same data for the one-file-per-route functions, with a recipe of
    each user. *)
Definition f_tea : Fn.recipe :=
  Fn.Recipe tea_id (Some "Tea") ["water"; "leaves"] (Some "Boil water") (Some alice_id).

Definition f_soup : Fn.recipe :=
  Fn.Recipe "0123456789abcdef01234568" (Some "Soup") [] (Some "Simmer") (Some bob_id).

Definition f0 : Fn.store := Fn.Store [alice; bob] [f_tea; f_soup].

Definition sign_in (name pass : string) : Body.t :=
  Body.Make (Some name) (Some pass) None None None None None None None.

(** A patch that names a new owner. *)
Definition give_to (owner : string) : Body.t :=
  Body.Make None None None None None None None (Some owner) None.

End Sample.

(** ** More sample data *)

Module Cases.

Import Sample.

(** The request for page [k + 1] of the listing, ten recipes a page. *)
Definition page_of (k : nat) : Api.request :=
  Api.Request "GET" "/api/recipes" None (Some (Js.toString (Z.of_nat (S k)))) (Some "10")
              Body.empty.

(** The primitives of [table] where the serverless handler runs beside the
    login function with the same secret: the token that the login function
    signs, whose payload is [{id}] without a [userId], verifies too. *)
Definition deployed : Primitives := {|
  jwt_sign := @jwt_sign table;
  jwt_verify := λ token t,
    if String.eqb token (alice_id ++ ".jwt")
    then Verified [("id", Json.Str alice_id)]
    else @jwt_verify table token t;
  bcrypt_hash := @bcrypt_hash table;
  bcrypt_compare := @bcrypt_compare table;
  update_operators := @update_operators table
|}.

Definition soup_id : string := fresh w0.

(** A recipe created with the token of the login function. *)
Definition soup : Recipe.t :=
  Recipe.Make soup_id "Soup" [] "Simmer" None None None (now w0).

Definition post_soup (token : string) : Api.request :=
  Api.Request "POST" "/api/recipes" (Some ("Bearer " ++ token)) None None
    (Body.Make None None (Some "Soup") None (Some "Simmer") None None None None).

Definition on_soup (method who : string) : Api.request :=
  Api.Request method ("/api/recipes/" ++ soup_id) (Some ("Bearer " ++ who ++ ".jwt"))
              None None (just "Stew").

Definition s1 : db := Db [alice; bob] [tea; soup].

End Cases.

(** * Properties *)

Import Sample.

(** ** Facts about the helpers *)

Arguments Json.strict_eq : simpl never.
Arguments Json.get : simpl never.
Arguments Mongo.findById : simpl never.
Arguments Mongo.findByIdAndUpdate : simpl never.
Arguments Mongo.findByIdAndDelete : simpl never.
Arguments Mongo.reference : simpl never.
Arguments ObjectId.cast : simpl never.

Lemma strict_eq_Str (a : string) (v : Json.t) :
  Json.strict_eq (Json.Str a) v = true ↔ v = Json.Str a.
Proof.
  unfold Json.strict_eq. destruct v; split; try discriminate.
  - intros E. apply String.eqb_eq in E. by subst.
  - intros [= ->]. apply String.eqb_refl.
Qed.

Lemma strict_eq_Str_false (a : string) (v : Json.t) :
  Json.strict_eq (Json.Str a) v = false ↔ v ≠ Json.Str a.
Proof.
  rewrite <- strict_eq_Str. destruct (Json.strict_eq _ _); split; congruence.
Qed.

Lemma findById_Some (i : string) (rs : list Recipe.t) (r : Recipe.t) :
  Mongo.findById i rs = inr (Some r) →
  ∃ o k, ObjectId.cast i = Some o ∧ Mongo.index_of o rs = Some (k, r)
         ∧ rs !! k = Some r.
Proof.
  unfold Mongo.findById. destruct (ObjectId.cast i) as [o|]; [|done].
  destruct (Mongo.index_of o rs) as [[k r']|] eqn:E; simpl; intros [= ->].
  exists o, k. split_and!; try done.
  by apply list_find_Some in E as [? _].
Qed.

Lemma findById_None (i : string) (rs : list Recipe.t) :
  Mongo.findById i rs = inr None →
  ∃ o, ObjectId.cast i = Some o ∧ Mongo.index_of o rs = None.
Proof.
  unfold Mongo.findById. destruct (ObjectId.cast i) as [o|]; [|done].
  destruct (Mongo.index_of o rs) as [[k r']|] eqn:E; simpl; intros [=].
  by exists o.
Qed.

(** ** Routing of the serverless handler *)

Section api_routes.
Context `{Primitives}.
Implicit Types (w : world) (req : Api.request) (s : db).

Lemma Api_route_put w req s :
  connection w = None → Api.method req = "PUT" →
  String.prefix "/api/recipes/" (Api.path req) = true →
  Api.handler w req s =
    match Api.update w req s with inr out => out | inl e => (Api.rescue e, s) end.
Proof.
  intros Hc Hm Hp. unfold Api.handler, Api.route, Mongo.connect.
  rewrite Hc, Hm, Hp. reflexivity.
Qed.

Lemma Api_route_delete w req s :
  connection w = None → Api.method req = "DELETE" →
  String.prefix "/api/recipes/" (Api.path req) = true →
  Api.handler w req s =
    match Api.delete_recipe w req s with inr out => out | inl e => (Api.rescue e, s) end.
Proof.
  intros Hc Hm Hp. unfold Api.handler, Api.route, Mongo.connect.
  rewrite Hc, Hm, Hp. reflexivity.
Qed.

End api_routes.

(** ** Ownership of mutations *)

Section ownership.
Context `{Primitives}.

Lemma Api_update_found (w : world) (req : Api.request) (s : db) user i recipe owner :
  connection w = None → Api.method req = "PUT" →
  String.prefix "/api/recipes/" (Api.path req) = true →
  Api.valid_id (Api.path req) = Some i →
  Api.authenticateToken w req = inr user →
  Mongo.findById i (recipes s) = inr (Some recipe) →
  Recipe.createdBy recipe = Some owner →
  Api.handler w req s =
    if Json.strict_eq (Json.Str owner) (Json.get "userId" user)
    then match Mongo.findByIdAndUpdate w i (Api.body req) (recipes s) with
         | inr (updated, rs) => (Api.Response 200 (Api.Updated updated), Db (users s) rs)
         | inl e => (Api.rescue e, s)
         end
    else (Api.Response 403 (Api.Err "Not authorized"), s).
Proof.
  intros Hc Hm Hp Hi Ha Hf Ho. rewrite Api_route_put by done.
  unfold Api.update, Api.owner_string. rewrite Ha; simpl. rewrite Hi, Hf; simpl.
  rewrite Ho; simpl. destruct (Json.strict_eq _ _); simpl; [|done].
  by destruct (Mongo.findByIdAndUpdate _ _ _ _) as [e|[u rs]].
Qed.

Lemma Api_delete_found (w : world) (req : Api.request) (s : db) user i recipe owner :
  connection w = None → Api.method req = "DELETE" →
  String.prefix "/api/recipes/" (Api.path req) = true →
  Api.valid_id (Api.path req) = Some i →
  Api.authenticateToken w req = inr user →
  Mongo.findById i (recipes s) = inr (Some recipe) →
  Recipe.createdBy recipe = Some owner →
  Api.handler w req s =
    if Json.strict_eq (Json.Str owner) (Json.get "userId" user)
    then match Mongo.findByIdAndDelete i (recipes s) with
         | inr rs => (Api.Response 200 Api.Deleted, Db (users s) rs)
         | inl e => (Api.rescue e, s)
         end
    else (Api.Response 403 (Api.Err "Not authorized"), s).
Proof.
  intros Hc Hm Hp Hi Ha Hf Ho. rewrite Api_route_delete by done.
  unfold Api.delete_recipe, Api.owner_string. rewrite Ha; simpl. rewrite Hi, Hf; simpl.
  rewrite Ho; simpl. destruct (Json.strict_eq _ _); simpl; [|done].
  by destruct (Mongo.findByIdAndDelete _ _) as [e|rs].
Qed.

(** A stored recipe without [createdBy]: the owner comparison throws, and
    an update or a delete is answered 500, whoever asks. *)
Lemma Api_recipe_without_createdBy (w : world) (req : Api.request) (s : db) user i recipe :
  connection w = None →
  Api.method req = "PUT" ∨ Api.method req = "DELETE" →
  String.prefix "/api/recipes/" (Api.path req) = true →
  Api.valid_id (Api.path req) = Some i →
  Api.authenticateToken w req = inr user →
  Mongo.findById i (recipes s) = inr (Some recipe) →
  Recipe.createdBy recipe = None →
  Api.handler w req s = (Api.Response 500 (Api.Internal TypeError), s).
Proof.
  intros Hc [Hm|Hm] Hp Hi Ha Hf Ho.
  - rewrite Api_route_put by done. unfold Api.update, Api.owner_string.
    rewrite Ha; simpl. rewrite Hi, Hf; simpl. by rewrite Ho.
  - rewrite Api_route_delete by done. unfold Api.delete_recipe, Api.owner_string.
    rewrite Ha; simpl. rewrite Hi, Hf; simpl. by rewrite Ho.
Qed.

(** An update or a delete of a stored recipe that has a [createdBy], by an
    authenticated user.  When the user is not its creator the answer is 403
    (not 404) and nothing changes.  For the creator it goes through: the
    delete removes the recipe; an update of plain keys puts in its place a
    recipe with the same [_id] and, field by field, the value sent or else
    the value stored.  In the serverless handler the identity is the
    [userId] claim; in the in-memory application, which has no user
    identifiers, it is the [username] claim. *)
Lemma Api_only_the_owner_mutates :
  (∀ (w : world) (req : Api.request) (s : db) user i recipe owner,
     connection w = None →
     String.prefix "/api/recipes/" (Api.path req) = true →
     Api.valid_id (Api.path req) = Some i →
     Api.authenticateToken w req = inr user →
     Mongo.findById i (recipes s) = inr (Some recipe) →
     Recipe.createdBy recipe = Some owner →
     (Json.get "userId" user ≠ Json.Str owner →
      Api.method req = "PUT" ∨ Api.method req = "DELETE" →
      Api.handler w req s = (Api.Response 403 (Api.Err "Not authorized"), s))
     ∧ (Json.get "userId" user = Json.Str owner →
        ∃ k, recipes s !! k = Some recipe
          ∧ (Api.method req = "PUT" →
             Body.operators (Api.body req) = [] →
             ∀ o, Mongo.reference CastError (Json.of_string (Body.createdBy (Api.body req))) = inr o →
               let b := Api.body req in
               let updated :=
                 Recipe.Make (Recipe._id recipe)
                   (default (Recipe.title recipe) (Body.title b))
                   (default (Recipe.ingredients recipe) (Body.ingredients b))
                   (default (Recipe.instructions recipe) (Body.instructions b))
                   (match Body.cookingTime b with
                    | Some t => Some t
                    | None => Recipe.cookingTime recipe
                    end)
                   (match Body.servings b with
                    | Some n => Some n
                    | None => Recipe.servings recipe
                    end)
                   (match o with Some c => Some c | None => Some owner end)
                   (default (Recipe.createdAt recipe) (Body.createdAt b)) in
               Api.handler w req s =
                 (Api.Response 200 (Api.Updated (Some updated)),
                  Db (users s) (<[k := updated]> (recipes s))))
          ∧ (Api.method req = "DELETE" →
             Api.handler w req s =
               (Api.Response 200 Api.Deleted, Db (users s) (delete k (recipes s))))))
  ∧ (∀ (w : world) (req : Mem.request) (s : Mem.state) token user k recipe,
       bearer (Mem.authorization req) = Some token →
       jwt_verify token (now w) = Verified user →
       Mem.findIndex (Mem.id req) (Mem.recipes s) = Some (k, recipe) →
       (Json.strict_eq (Json.get "createdBy" recipe) (Json.get "username" user) = false →
        Mem.put_recipe w req s =
          (Mem.Response 403 (Mem.error "Not authorized to update this recipe"), s)
        ∧ Mem.delete_recipe w req s =
          (Mem.Response 403 (Mem.error "Not authorized to delete this recipe"), s))
       ∧ (Json.strict_eq (Json.get "createdBy" recipe) (Json.get "username" user) = true →
          let updated :=
            Json.set "id" (Json.Str (Mem.id req)) (Json.spread recipe (Mem.body req)) in
          Mem.put_recipe w req s =
            (Mem.Response 200 (Some (Json.Obj updated)),
             Mem.State (Mem.users s) (<[k := updated]> (Mem.recipes s)))
          ∧ Mem.delete_recipe w req s =
            (Mem.Response 204 None, Mem.State (Mem.users s) (delete k (Mem.recipes s))))).
Proof.
  split.
  - intros w req s user i recipe owner Hc Hp Hi Ha Hf Ho. split.
    + intros Hne%strict_eq_Str_false [Hm|Hm].
      * rewrite (Api_update_found w req s user i recipe owner) by done. by rewrite Hne.
      * rewrite (Api_delete_found w req s user i recipe owner) by done. by rewrite Hne.
    + intros Heq%strict_eq_Str.
      destruct (findById_Some _ _ _ Hf) as (o & k & Hcast & Hidx & Hk).
      exists k. split_and!; [done| |].
      * intros Hm Hops own Hown b updated.
        rewrite (Api_update_found w req s user i recipe owner) by done. rewrite Heq.
        unfold Mongo.findByIdAndUpdate. rewrite Hcast, Hops, Hown; simpl. rewrite Hidx.
        unfold updated, Mongo.set_fields, b. rewrite Ho.
        by destruct (Body.cookingTime _), (Body.servings _), own.
      * intros Hm.
        rewrite (Api_delete_found w req s user i recipe owner) by done. rewrite Heq.
        unfold Mongo.findByIdAndDelete. by rewrite Hcast, Hidx.
  - intros w req s token user k recipe Hb Hv Hf.
    unfold Mem.put_recipe, Mem.delete_recipe, Mem.authenticateToken.
    rewrite Hb, Hv, Hf. split; intros ->; done.
Qed.

End ownership.

Lemma Api_only_the_owner_mutates_example :
  Api.handler (H:=table) w0 (put_tea "bob" (just "Coffee")) s0
    = (Api.Response 403 (Api.Err "Not authorized"), s0)
  ∧ (let coffee :=
       Recipe.Make tea_id "Coffee" ["water"; "leaves"] "Boil water" (Some 5) None
                   (Some alice_id) 1690000000000 in
     Api.handler (H:=table) w0 (put_tea "alice" (just "Coffee")) s0
     = (Api.Response 200 (Api.Updated (Some coffee)), Db (users s0) [coffee]))
  ∧ Api.handler (H:=table) w0 (delete_tea "alice") s0
    = (Api.Response 200 Api.Deleted, Db (users s0) [])
  ∧ Mem.delete_recipe (H:=table) w0 (mem_tea "bob" []) m0
    = (Mem.Response 403 (Mem.error "Not authorized to delete this recipe"), m0).
Proof.
  pose proof (Api_only_the_owner_mutates (H:=table)) as [HApi HMem].
  split_and!.
  - apply (HApi w0 (put_tea "bob" (just "Coffee")) s0 bob_claims tea_id tea alice_id);
      [reflexivity..|discriminate|by left].
  - destruct (HApi w0 (put_tea "alice" (just "Coffee")) s0 alice_claims tea_id tea alice_id)
      as [_ Hown]; [reflexivity..|].
    destruct Hown as (k & Hk & Hput & _); [reflexivity|].
    destruct k as [|k]; [|by destruct k].
    by apply (Hput eq_refl eq_refl None).
  - destruct (HApi w0 (delete_tea "alice") s0 alice_claims tea_id tea alice_id)
      as [_ Hown]; [reflexivity..|].
    destruct Hown as (k & Hk & _ & Hdel); [reflexivity|].
    destruct k as [|k]; [|by destruct k]. by apply Hdel.
  - by apply (HMem w0 (mem_tea "bob" []) m0 "bob.jwt" bob_claims 0%nat m_tea).
Defined.

(** C1 fails on a stored recipe that has no [createdBy].  The recipe schema
    does not require the field, and the handler creates such a recipe when
    the token carries no [userId], as the token of the login function does.
    Here alice signs in through the login function and creates [soup] with
    that token; bob, whose [userId] is not the [createdBy] of [soup], then
    asks to delete and to update it and is answered 500 where the claim
    says 403; so is alice.  The Express application does the same. *)
Theorem C1_recipe_without_createdBy_is_answered_500 :
  Fn.login (H:=Cases.deployed) w0 (Fn.Request "POST" None (sign_in "alice" "secret1")) f0
    = inr (Fn.Response 200 (Fn.Token (alice_id ++ ".jwt")), f0)
  ∧ Api.handler (H:=Cases.deployed) w0 (Cases.post_soup (alice_id ++ ".jwt")) s0
    = (Api.Response 201 (Api.Created Cases.soup), Cases.s1)
  ∧ Recipe.createdBy Cases.soup = None
  ∧ Json.get "userId" bob_claims = Json.Str bob_id
  ∧ Api.handler (H:=Cases.deployed) w0 (Cases.on_soup "DELETE" "bob") Cases.s1
    = (Api.Response 500 (Api.Internal TypeError), Cases.s1)
  ∧ Api.handler (H:=Cases.deployed) w0 (Cases.on_soup "PUT" "bob") Cases.s1
    = (Api.Response 500 (Api.Internal TypeError), Cases.s1)
  ∧ Api.handler (H:=Cases.deployed) w0 (Cases.on_soup "DELETE" "alice") Cases.s1
    = (Api.Response 500 (Api.Internal TypeError), Cases.s1)
  ∧ Express.delete_recipe (H:=Cases.deployed) w0
      (Express.Request (Some "Bearer bob.jwt") Cases.soup_id Body.empty) Cases.s1
    = (Api.Response 500 (Api.Err "Internal server error"), Cases.s1).
Proof. vm_compute. repeat split. Qed.

(** ** Absent recipes *)

Section absent.
Context `{Primitives}.

(** C2. An update or a delete whose identifier names no stored recipe is
    answered 404, whoever the authenticated user is: the recipe is looked up
    before its owner is compared with the user. *)
Theorem C2_absent_recipe_is_not_found :
  (∀ (w : world) (req : Api.request) (s : db) (user : claims) i,
     connection w = None →
     Api.method req = "PUT" ∨ Api.method req = "DELETE" →
     String.prefix "/api/recipes/" (Api.path req) = true →
     Api.valid_id (Api.path req) = Some i →
     Api.authenticateToken w req = inr user →
     Mongo.findById i (recipes s) = inr None →
     Api.handler w req s = (Api.Response 404 (Api.Err "Recipe not found"), s))
  ∧ (∀ (w : world) (req : Express.request) (s : db) token (user : claims),
       connection w = None →
       bearer (Express.authorization req) = Some token →
       jwt_verify token (now w) = Verified user →
       Mongo.findById (Express.id req) (recipes s) = inr None →
       Express.put_recipe w req s = (Api.Response 404 (Api.Err "Recipe not found"), s)
       ∧ Express.delete_recipe w req s = (Api.Response 404 (Api.Err "Recipe not found"), s)).
Proof.
  split.
  - intros w req s user i Hc [Hm|Hm] Hp Hi Ha Hf.
    + rewrite Api_route_put by done. unfold Api.update.
      rewrite Ha; simpl. by rewrite Hi, Hf.
    + rewrite Api_route_delete by done. unfold Api.delete_recipe.
      rewrite Ha; simpl. by rewrite Hi, Hf.
  - intros w req s token user Hc Hb Hv Hf.
    unfold Express.put_recipe, Express.delete_recipe, Express.authenticateToken,
      Mongo.connect.
    rewrite Hb, Hv, Hc; simpl. by rewrite Hf.
Qed.

End absent.

Lemma C2_witness :
  Api.handler (H:=table) w0
    (Api.Request "DELETE" "/api/recipes/ffffffffffffffffffffffff" (Some "Bearer bob.jwt")
                 None None Body.empty) s0
  = (Api.Response 404 (Api.Err "Recipe not found"), s0)
  ∧ Express.put_recipe (H:=table) w0
      (Express.Request (Some "Bearer alice.jwt") "ffffffffffffffffffffffff" (just "Coffee")) s0
    = (Api.Response 404 (Api.Err "Recipe not found"), s0).
Proof.
  pose proof (C2_absent_recipe_is_not_found (H:=table)) as [HApi HExpress].
  split.
  - apply (HApi w0 _ s0 bob_claims "ffffffffffffffffffffffff");
      [reflexivity|by right|reflexivity..].
  - by apply (HExpress w0 _ s0 "alice.jwt" alice_claims).
Defined.

(** ** The authorization guard *)

Section guard.
Context `{Primitives}.

(** C4, as the code has it.  A request to a protected operation whose
    token is missing, does not verify or has expired never reaches the
    operation and never changes the store.  The Express middleware refuses
    it (401 when missing, 403 otherwise) before anything else: its answer
    is the same for every handler [next] placed behind it, so for the three
    protected routes, whether or not the database can be reached.  The
    serverless handler connects to the database before it looks at the
    token: it refuses the request with 401 once connected, and answers as
    its catch block does for the connection error, 500, when it cannot
    connect. *)
Theorem C4_guard_rejects_once_connected :
  (∀ (w : world) (req : Api.request) (s : db),
     (Api.method req = "POST" ∧ Api.path req = "/api/recipes")
     ∨ ((Api.method req = "PUT" ∨ Api.method req = "DELETE")
        ∧ String.prefix "/api/recipes/" (Api.path req) = true) →
     (connection w = None →
      (bearer (Api.authorization req) = None →
       Api.handler w req s = (Api.Response 401 (Api.Err "Access token required"), s))
      ∧ (∀ token, bearer (Api.authorization req) = Some token →
         jwt_verify token (now w) = BadSignature ∨ jwt_verify token (now w) = Expired →
         Api.handler w req s = (Api.Response 401 (Api.Err "Invalid token"), s)))
     ∧ (∀ e, connection w = Some e →
        Api.handler w req s = (Api.rescue e, s)
        ∧ (e ≠ Error "Access token required" → e ≠ Error "Invalid token" →
           Api.rescue e = Api.Response 500 (Api.Internal e))))
  ∧ (∀ (w : world) (req : Express.request) next (s : db),
       (bearer (Express.authorization req) = None →
        Express.authenticateToken w req next s
          = (Api.Response 401 (Api.Err "Access token required"), s))
       ∧ (∀ token, bearer (Express.authorization req) = Some token →
          jwt_verify token (now w) = BadSignature ∨ jwt_verify token (now w) = Expired →
          Express.authenticateToken w req next s
            = (Api.Response 403 (Api.Err "Invalid token"), s)))
  ∧ (∀ (w : world) (req : Express.request) (s : db) route,
       route = Express.post_recipe ∨ route = Express.put_recipe
       ∨ route = Express.delete_recipe →
       (bearer (Express.authorization req) = None →
        route w req s = (Api.Response 401 (Api.Err "Access token required"), s))
       ∧ (∀ token, bearer (Express.authorization req) = Some token →
          jwt_verify token (now w) = BadSignature ∨ jwt_verify token (now w) = Expired →
          route w req s = (Api.Response 403 (Api.Err "Invalid token"), s))).
Proof.
  assert (∀ (w : world) (req : Express.request) next (s : db),
       (bearer (Express.authorization req) = None →
        Express.authenticateToken w req next s
          = (Api.Response 401 (Api.Err "Access token required"), s))
       ∧ (∀ token, bearer (Express.authorization req) = Some token →
          jwt_verify token (now w) = BadSignature ∨ jwt_verify token (now w) = Expired →
          Express.authenticateToken w req next s
            = (Api.Response 403 (Api.Err "Invalid token"), s))) as Hmiddleware.
  { intros w req next s. unfold Express.authenticateToken. split.
    - by intros ->.
    - intros token -> Hv. by destruct Hv as [-> | ->]. }
  split_and!.
  - intros w req s Hroute. split.
    + intros Hc.
      assert (∀ e, Api.authenticateToken w req = inl e →
                   Api.handler w req s = (Api.rescue e, s)) as Hthrow.
      { intros e He. destruct Hroute as [[Hm Hp]|[[Hm|Hm] Hp]].
        - unfold Api.handler, Api.route, Mongo.connect. rewrite Hc, Hm, Hp; simpl.
          unfold Api.create. by rewrite He.
        - rewrite Api_route_put by done. unfold Api.update. by rewrite He.
        - rewrite Api_route_delete by done. unfold Api.delete_recipe. by rewrite He. }
      split.
      * intros Hb. apply (Hthrow (Error "Access token required")).
        unfold Api.authenticateToken. by rewrite Hb.
      * intros token Hb Hv. apply (Hthrow (Error "Invalid token")).
        unfold Api.authenticateToken. rewrite Hb. by destruct Hv as [-> | ->].
    + intros e Hc. split.
      * unfold Api.handler, Api.route, Mongo.connect. rewrite Hc.
        by destruct Hroute as [[-> ->]|[[->| ->] _]].
      * intros H1 H2. destruct e as [m| | | |]; try done. simpl.
        destruct (String.eqb_spec m "Access token required") as [->|_]; [done|].
        destruct (String.eqb_spec m "Invalid token") as [->|_]; done.
  - apply Hmiddleware.
  - intros w req s route [->|[->| ->]]; apply Hmiddleware.
Qed.

End guard.

(** C4, as the spec has it, fails in the serverless handler: the database
    cannot be reached, and an update that carries no token at all is
    answered 500, not 401. *)
Lemma C4_counterexample :
  let down := World (now w0) (fresh w0) (salt w0) (Some (Error "MONGO_URI is not defined")) in
  let req := Api.Request "PUT" ("/api/recipes/" ++ tea_id) None None None (just "Coffee") in
  bearer (Api.authorization req) = None
  ∧ Api.handler (H:=table) down req s0
    = (Api.Response 500 (Api.Internal (Error "MONGO_URI is not defined")), s0).
Proof. by vm_compute. Qed.

Lemma C4_witness :
  Api.handler (H:=table) w0 (put_tea "old" (just "Coffee")) s0
  = (Api.Response 401 (Api.Err "Invalid token"), s0)
  ∧ Api.handler (H:=table) (World 0 "0" "0" (Some MongoError)) (delete_tea "old") s0
    = (Api.Response 500 (Api.Internal MongoError), s0)
  ∧ Express.authenticateToken (H:=table) w0
      (Express.Request None tea_id (just "Coffee")) (λ _ _, (Api.Response 200 Api.Deleted, Db [] []))
      s0
    = (Api.Response 401 (Api.Err "Access token required"), s0)
  ∧ Express.delete_recipe (H:=table) (World 0 "0" "0" (Some MongoError))
      (Express.Request (Some "Bearer old.jwt") tea_id Body.empty) s0
    = (Api.Response 403 (Api.Err "Invalid token"), s0).
Proof.
  pose proof (C4_guard_rejects_once_connected (H:=table)) as (HApi & HExpress & HRoutes).
  split_and!.
  - refine (proj2 (proj1 (HApi w0 (put_tea "old" (just "Coffee")) s0 _) eq_refl)
              "old.jwt" eq_refl _).
    + right. split; [by left|reflexivity].
    + by right.
  - destruct (HApi (World 0 "0" "0" (Some MongoError)) (delete_tea "old") s0) as [_ Hdown].
    + right. split; [by right|reflexivity].
    + destruct (Hdown MongoError eq_refl) as [-> Hstatus].
      by rewrite Hstatus.
  - by apply HExpress.
  - refine (proj2 (HRoutes (World 0 "0" "0" (Some MongoError))
                     (Express.Request (Some "Bearer old.jwt") tea_id Body.empty) s0
                     Express.delete_recipe _) "old.jwt" eq_refl _).
    + by right; right.
    + by right.
Defined.

(** ** Failed mutations *)

Section failures.
Context `{Primitives}.

(** Whatever the serverless handler is asked, it changes the store only
    when it answers 200 or 201. *)
Lemma Api_route_writes (w : world) (req : Api.request) (s s' : db) res :
  Api.route w req s = inr (res, s') →
  s' = s ∨ Api.status res = 200 ∨ Api.status res = 201.
Proof.
  unfold Api.route, Api.register, Api.login, Api.list_recipes, Api.create,
    Api.get_recipe, Api.update, Api.delete_recipe, bind.
  intros E. repeat case_match; simplify_eq; simpl; auto.
Qed.

Lemma Api_rescue_status (e : exn) :
  Api.status (Api.rescue e) = 401 ∨ Api.status (Api.rescue e) = 500.
Proof. destruct e; simpl; auto. case_match; auto. Qed.

Lemma Api_handler_writes (w : world) (req : Api.request) (s s' : db) res :
  Api.handler w req s = (res, s') →
  s' = s ∨ Api.status res = 200 ∨ Api.status res = 201.
Proof.
  unfold Api.handler. case_match; [intros [= <- <-]; auto|].
  destruct (Api.route w req s) as [e|[res' s'']] eqn:E.
  - intros [= <- <-]. auto.
  - intros [= <- <-]. by apply Api_route_writes in E.
Qed.

Lemma Express_try_writes (body : throws (Api.response * db)) rescue (s s' : db) res :
  (∀ r t, body = inr (r, t) → t = s ∨ Api.status r = 200) →
  Express.try body rescue s = (res, s') →
  s' = s ∨ Api.status res = 200.
Proof.
  intros Hbody. unfold Express.try. destruct body as [e|[r t]].
  - intros [= <- <-]. auto.
  - intros [= <- <-]. by apply Hbody.
Qed.

(** C10. When an update or a delete is answered 404 or 403 the store is
    exactly as it was before the request. *)
Theorem C10_failed_mutation_changes_nothing :
  (∀ (w : world) (req : Api.request) (s s' : db) res,
     Api.handler w req s = (res, s') →
     Api.status res = 404 ∨ Api.status res = 403 → s' = s)
  ∧ (∀ (w : world) (req : Express.request) (s s' : db) res,
       Express.put_recipe w req s = (res, s') ∨ Express.delete_recipe w req s = (res, s') →
       Api.status res = 404 ∨ Api.status res = 403 → s' = s)
  ∧ (∀ (w : world) (req : Mem.request) (s s' : Mem.state) res,
       Mem.put_recipe w req s = (res, s') ∨ Mem.delete_recipe w req s = (res, s') →
       Mem.status res = 404 ∨ Mem.status res = 403 → s' = s).
Proof.
  split_and!.
  - intros w req s s' res E Hst.
    apply Api_handler_writes in E as [?|[?|?]]; [done|lia..].
  - intros w req s s' res E Hst.
    cut (s' = s ∨ Api.status res = 200); [intros [?|?]; [done|lia]|].
    unfold Express.put_recipe, Express.delete_recipe, Express.authenticateToken in E.
    destruct E as [E|E].
    + repeat case_match; simplify_eq; auto.
      eapply Express_try_writes; [|done]. intros r t. unfold bind.
      repeat case_match; intros; simplify_eq; simpl; auto.
    + repeat case_match; simplify_eq; auto.
      eapply Express_try_writes; [|done]. intros r t. unfold bind.
      repeat case_match; intros; simplify_eq; simpl; auto.
  - intros w req s s' res E Hst.
    unfold Mem.put_recipe, Mem.delete_recipe, Mem.authenticateToken in E.
    destruct E as [E|E]; repeat case_match; simplify_eq; simpl in *; auto; lia.
Qed.

End failures.

Lemma C10_witness :
  snd (Api.handler (H:=table) w0 (put_tea "bob" (just "Coffee")) s0) = s0
  ∧ snd (Express.delete_recipe (H:=table) w0
           (Express.Request (Some "Bearer bob.jwt") tea_id Body.empty) s0) = s0
  ∧ snd (Mem.put_recipe (H:=table) w0 (mem_tea "bob" [("title", Json.Str "Coffee")]) m0) = m0.
Proof.
  pose proof (C10_failed_mutation_changes_nothing (H:=table)) as (HApi & HExpress & HMem).
  split_and!.
  - apply (HApi w0 (put_tea "bob" (just "Coffee")) s0 _
             (Api.Response 403 (Api.Err "Not authorized"))); [reflexivity|by right].
  - apply (HExpress w0 (Express.Request (Some "Bearer bob.jwt") tea_id Body.empty) s0 _
             (Api.Response 403 (Api.Err "Not authorized to delete this recipe")));
      [by right|by right].
  - apply (HMem w0 (mem_tea "bob" [("title", Json.Str "Coffee")]) m0 _
             (Mem.Response 403 (Mem.error "Not authorized to update this recipe")));
      [by left|by right].
Defined.

(** ** Listing *)

#[local] Instance newest_first_total : Total Mongo.newest_first.
Proof. intros a b. unfold Mongo.newest_first. lia. Qed.

#[local] Instance newest_first_trans : Transitive Mongo.newest_first.
Proof. intros a b c. unfold Mongo.newest_first. lia. Qed.

Lemma StronglySorted_sublist {A} (R : relation A) (k l : list A) :
  k `sublist_of` l → StronglySorted R l → StronglySorted R k.
Proof.
  induction 1 as [|x k l Hkl IH|x k l Hkl IH]; intros Hl.
  - constructor.
  - apply StronglySorted_inv in Hl as [Hl Hx]. constructor; [by apply IH|].
    rewrite Forall_forall in Hx |- *. intros y Hy. apply Hx.
    by eapply elem_of_sublist.
  - apply StronglySorted_inv in Hl as [Hl _]. by apply IH.
Qed.

Lemma sort_sorted (rs : list Recipe.t) : StronglySorted Mongo.newest_first (Mongo.sort rs).
Proof. apply StronglySorted_merge_sort; apply _. Qed.

Lemma sort_perm (rs : list Recipe.t) : Mongo.sort rs ≡ₚ rs.
Proof. apply merge_sort_Permutation. Qed.

(** [ceil_div a b] is the least number of groups of [b] that hold [a]. *)
Lemma ceil_div_spec (a b : Z) :
  0 < b → (Js.ceil_div a b - 1) * b < a ≤ Js.ceil_div a b * b.
Proof.
  intros Hb. unfold Js.ceil_div.
  pose proof (Z.div_mod (- a) b ltac:(lia)) as Hdiv.
  pose proof (Z.mod_pos_bound (- a) b Hb) as Hmod. nia.
Qed.

Section listing.
Context `{Primitives}.

(** C8. A list request with positive [page] and [limit], whose product is
    within the integers that JavaScript numbers hold exactly, is answered
    with the [page]-th window of [limit] recipes of the whole collection
    ordered by creation time, newest first; [page] is 1 and [limit] is 10
    when the query does not give them; [pages] is the ceiling of
    [total / limit]; with 25 recipes and a limit of 10 there are 3 pages,
    the total is 25 and page 3 has 5 recipes. *)
Theorem C8_listing_is_paged_newest_first (w : world) (req : Api.request) (s : db)
    (page limit total : Z) :
  connection w = None → Api.method req = "GET" → Api.path req = "/api/recipes" →
  page = Js.parseInt_or (Api.page req) 1 →
  limit = Js.parseInt_or (Api.limit req) 10 →
  total = Z.of_nat (length (recipes s)) →
  0 < page → 0 < limit →
  page * limit ≤ Js.MAX_SAFE_INTEGER → total ≤ Js.MAX_SAFE_INTEGER →
  ∃ found pages,
    Api.handler w req s =
      (Api.Response 200 (Api.Listing (Mongo.populate (users s) <$> found)
                                     page limit total pages), s)
    ∧ (∃ sorted, sorted ≡ₚ recipes s
         ∧ StronglySorted Mongo.newest_first sorted
         ∧ found = take (Z.to_nat limit) (drop (Z.to_nat ((page - 1) * limit)) sorted))
    ∧ StronglySorted Mongo.newest_first found
    ∧ (pages - 1) * limit < total ≤ pages * limit
    ∧ (Api.page req = None → page = 1)
    ∧ (Api.limit req = None → limit = 10)
    ∧ (total = 25 → limit = 10 → pages = 3 ∧ (page = 3 → length found = 5%nat)).
Proof.
  intros Hc Hm Hp Hpage Hlimit Htotal Hpos Hlim _ _.
  set (sorted := Mongo.sort (recipes s)).
  set (found := take (Z.to_nat limit) (drop (Z.to_nat ((page - 1) * limit)) sorted)).
  exists found, (Js.ceil_div total limit).
  assert (length sorted = length (recipes s)) as Hlen
    by apply Permutation_length, sort_perm.
  refine (conj _ (conj _ (conj _ (conj _ (conj _ (conj _ _)))))).
  - unfold Api.handler, Api.route, Mongo.connect. rewrite Hc, Hm, Hp; simpl.
    unfold Api.list_recipes, Mongo.window. rewrite <- Hpage, <- Hlimit, <- Htotal.
    destruct (Z.ltb_spec ((page - 1) * limit) 0) as [Hneg|_]; [nia|]. simpl.
    by rewrite Z.abs_eq by lia.
  - exists sorted. split_and!; [apply sort_perm|apply sort_sorted|done].
  - apply (StronglySorted_sublist _ _ sorted); [|apply sort_sorted].
    etrans; [apply sublist_take|apply sublist_drop].
  - by apply ceil_div_spec.
  - intros E. subst page. by rewrite E.
  - intros E. subst limit. by rewrite E.
  - intros -> ->. split; [done|]. intros ->. unfold found.
    rewrite length_take, length_drop, Hlen. lia.
Qed.

End listing.

Lemma C8_witness :
  ∃ found pages,
    Api.handler (H:=table) w0
      (Api.Request "GET" "/api/recipes" None (Some "3") (Some "10") Body.empty) s25
    = (Api.Response 200 (Api.Listing (Mongo.populate (users s25) <$> found) 3 10 25 pages), s25)
    ∧ pages = 3 ∧ length found = 5%nat.
Proof.
  destruct (C8_listing_is_paged_newest_first (H:=table) w0
              (Api.Request "GET" "/api/recipes" None (Some "3") (Some "10") Body.empty)
              s25 3 10 25 eq_refl eq_refl eq_refl eq_refl eq_refl eq_refl
              ltac:(lia) ltac:(lia) ltac:(by vm_compute) ltac:(by vm_compute))
    as (found & pages & Hres & _ & _ & _ & _ & _ & Hex).
  exists found, pages. destruct (Hex eq_refl eq_refl) as [Hpages Hfound].
  split_and!; [done|done|by apply Hfound].
Defined.

(** ** The owner reference *)

Section owner_reference.
Context `{Primitives}.

Lemma set_fields_createdBy (b : Body.t) (r : Recipe.t) :
  Recipe.createdBy (Mongo.set_fields None b r) = Recipe.createdBy r.
Proof. reflexivity. Qed.

Lemma update_keeps_createdBy (w : world) (i : string) (b : Body.t)
    (rs rs' : list Recipe.t) u :
  Body.createdBy b = None →
  Body.operators b = [] →
  Mongo.findByIdAndUpdate w i b rs = inr (u, rs') →
  Recipe.createdBy <$> rs' = Recipe.createdBy <$> rs.
Proof.
  intros Hb Hops. unfold Mongo.findByIdAndUpdate. rewrite Hb, Hops.
  destruct (ObjectId.cast i) as [o|]; [|done]. simpl.
  destruct (Mongo.index_of o rs) as [[k r]|] eqn:E; intros [= <- <-]; [|done].
  apply list_find_Some in E as (Hk & _ & _).
  rewrite list_fmap_insert, set_fields_createdBy.
  apply list_insert_id. by rewrite list_lookup_fmap, Hk.
Qed.

Lemma Api_update_overwrites_createdBy (w : world) (req : Api.request) (s : db)
    (user : claims) i recipe owner c c' :
  connection w = None →
  Api.method req = "PUT" →
  String.prefix "/api/recipes/" (Api.path req) = true →
  Api.valid_id (Api.path req) = Some i →
  Api.authenticateToken w req = inr user →
  Mongo.findById i (recipes s) = inr (Some recipe) →
  Recipe.createdBy recipe = Some owner →
  Json.get "userId" user = Json.Str owner →
  Body.createdBy (Api.body req) = Some c →
  Body.operators (Api.body req) = [] →
  ObjectId.cast c = Some c' →
  ∃ k updated,
    recipes s !! k = Some recipe
    ∧ Recipe.createdBy updated = Some c'
    ∧ Api.handler w req s =
        (Api.Response 200 (Api.Updated (Some updated)),
         Db (users s) (<[k := updated]> (recipes s))).
Proof.
  intros Hc Hm Hp Hi Ha Hf Ho Hu Hb Hops Hcast.
  destruct (findById_Some _ _ _ Hf) as (o & k & Hcasti & Hidx & Hk).
  exists k, (Mongo.set_fields (Some c') (Api.body req) recipe).
  split_and!; [done|done|].
  rewrite (Api_update_found w req s user i recipe owner) by done.
  apply strict_eq_Str in Hu. rewrite Hu.
  unfold Mongo.findByIdAndUpdate, Mongo.reference.
  rewrite Hcasti, Hops, Hb; simpl. rewrite Hcast; simpl. by rewrite Hidx.
Qed.

(** C3, as the code has it.  A recipe is created with the [userId] of the
    verified claim as its [createdBy], whatever the request body says, and
    an update whose body has no [createdBy] key and no update operator
    leaves the [createdBy] of every recipe as it was. *)
Theorem C3_createdBy_set_from_claim_kept_by_plain_updates :
  (∀ (w : world) (req : Api.request) (s : db) (user : claims) title instructions owner,
     connection w = None →
     Api.method req = "POST" → Api.path req = "/api/recipes" →
     Api.authenticateToken w req = inr user →
     Js.truthy (Body.title (Api.body req)) = Some title →
     Js.truthy (Body.instructions (Api.body req)) = Some instructions →
     Mongo.reference ValidationError (Json.get "userId" user) = inr owner →
     let recipe :=
       Recipe.Make (fresh w) title (default [] (Body.ingredients (Api.body req)))
         instructions (Body.cookingTime (Api.body req)) (Body.servings (Api.body req))
         owner (now w) in
     Api.handler w req s =
       (Api.Response 201 (Api.Created recipe), Db (users s) (recipes s ++ [recipe])))
  ∧ (∀ (w : world) (req : Api.request) (s : db),
       Api.method req = "PUT" →
       Body.createdBy (Api.body req) = None →
       Body.operators (Api.body req) = [] →
       Recipe.createdBy <$> recipes (Api.handler w req s).2 = Recipe.createdBy <$> recipes s).
Proof.
  split.
  - intros w req s user title instructions owner Hc Hm Hp Ha Ht Hi Ho recipe.
    unfold Api.handler, Api.route, Mongo.connect. rewrite Hc, Hm, Hp; simpl.
    unfold Api.create. rewrite Ha; simpl. by rewrite Ht, Hi, Ho.
  - intros w req s Hm Hb Hops. unfold Api.handler, Api.route. rewrite Hm; simpl.
    destruct (Mongo.connect w) as [e|[]]; [done|]; simpl.
    destruct (String.prefix _ _); [|done].
    unfold Api.update, bind.
    repeat case_match; simplify_eq; simpl; try done.
    by eapply update_keeps_createdBy.
Qed.

End owner_reference.

(** C3, as the spec has it, fails: the owner of [tea] sends a patch with
    another user's identifier as [createdBy], and the stored recipe changes
    hands. *)
Lemma C3_counterexample :
  Recipe.createdBy <$> recipes s0 = [Some alice_id]
  ∧ Api.status (Api.handler (H:=table) w0 (put_tea "alice" (give_to bob_id)) s0).1 = 200
  ∧ Recipe.createdBy <$> recipes (Api.handler (H:=table) w0 (put_tea "alice" (give_to bob_id)) s0).2
    = [Some bob_id].
Proof. by vm_compute. Qed.

Lemma C3_witness :
  (∃ recipe,
     Api.handler (H:=table) w0
       (Api.Request "POST" "/api/recipes" (Some "Bearer bob.jwt") None None
          (Body.Make None None (Some "Soup") None (Some "Simmer") None None
                     (Some alice_id) None)) s0
     = (Api.Response 201 (Api.Created recipe), Db (users s0) (recipes s0 ++ [recipe]))
     ∧ Recipe.createdBy recipe = Some bob_id)
  ∧ Recipe.createdBy <$> recipes (Api.handler (H:=table) w0 (put_tea "alice" (just "Chai")) s0).2
    = Recipe.createdBy <$> recipes s0.
Proof.
  pose proof (C3_createdBy_set_from_claim_kept_by_plain_updates (H:=table))
    as (Hcreate & Hkeep).
  split.
  - eexists. split.
    + by apply (Hcreate w0 _ s0 bob_claims "Soup" "Simmer" (Some bob_id)).
    + reflexivity.
  - by apply Hkeep.
Defined.

(** ** Public reads *)

Section reads.
Context `{Primitives}.


End reads.



(** ** Credentials *)

Section credentials.
Context `{Primitives}.

(** The serverless handler gives one answer to every failed login with a
    user name and a password: whether the name is unknown or the password
    is wrong cannot be read off the response. *)
Lemma Api_login_failure_uniform (w : world) (req : Api.request) (s s' : db) res name pass :
  Js.truthy (Body.username (Api.body req)) = Some name →
  Js.truthy (Body.password (Api.body req)) = Some pass →
  Api.login w req s = inr (res, s') →
  Api.status res ≠ 200 →
  res = Api.Response 401 (Api.Err "Invalid credentials") ∧ s' = s.
Proof.
  intros Hn Hp. unfold Api.login. rewrite Hn, Hp.
  repeat case_match; intros [= <- <-]; done.
Qed.

Lemma Express_login_failure_uniform (w : world) (req : Express.request) (s s' : db)
    res name pass :
  connection w = None →
  Js.truthy (Body.username (Express.body req)) = Some name →
  Js.truthy (Body.password (Express.body req)) = Some pass →
  Express.login w req s = (res, s') →
  Api.status res ≠ 200 →
  res = Api.Response 401 (Api.Err "Invalid credentials") ∧ s' = s.
Proof.
  intros Hc Hn Hp. unfold Express.login, Mongo.connect. rewrite Hc, Hn, Hp; simpl.
  repeat case_match; intros [= <- <-]; done.
Qed.

(** The login function answers an unknown user name and a wrong password
    differently. *)
Lemma Fn_login_unknown (w : world) (req : Fn.request) (s : Fn.store) :
  connection w = None → Fn.method req = "POST" →
  Body.username (Fn.body req) ≫= (λ u, Mongo.findOne u (Fn.users s)) = None →
  Fn.login w req s = inr (Fn.Response 400 (Fn.Err "User not found"), s).
Proof.
  intros Hc Hm Hu. unfold Fn.login, Fn.dbConnect, Mongo.connect.
  rewrite Hc, Hm; simpl. by rewrite Hu.
Qed.

Lemma Fn_login_wrong_password (w : world) (req : Fn.request) (s : Fn.store) user pass :
  connection w = None → Fn.method req = "POST" →
  Body.username (Fn.body req) ≫= (λ u, Mongo.findOne u (Fn.users s)) = Some user →
  Body.password (Fn.body req) = Some pass →
  bcrypt_compare pass (User.password user) = false →
  Fn.login w req s = inr (Fn.Response 401 (Fn.Err "Invalid password"), s).
Proof.
  intros Hc Hm Hu Hp Hcmp. unfold Fn.login, Fn.compare, Fn.dbConnect, Mongo.connect.
  rewrite Hc, Hm; simpl. rewrite Hu, Hp; simpl. by rewrite Hcmp.
Qed.

(** The serverless handler stores the hash and refuses short passwords. *)
Lemma Api_register_stores_hash (w : world) (req : Api.request) (s : db) name pass :
  Js.truthy (Body.username (Api.body req)) = Some name →
  Js.truthy (Body.password (Api.body req)) = Some pass →
  (6 ≤ String.length pass)%nat →
  Mongo.findOne name (users s) = None →
  Api.register w req s =
    inr (Api.Response 201 (Api.Registered (fresh w)),
         Db (users s ++ [User.Make (fresh w) name (bcrypt_hash pass 12 (salt w))])%list
            (recipes s)).
Proof.
  intros Hn Hp Hlen Hfree. unfold Api.register. rewrite Hn, Hp, Hfree.
  destruct (Nat.ltb_spec (String.length pass) 6); [lia|done].
Qed.

Lemma Api_register_weak_password (w : world) (req : Api.request) (s : db) pass :
  Body.password (Api.body req) = Some pass →
  (String.length pass < 6)%nat →
  ∃ message, Api.register w req s = inr (Api.Response 400 (Api.Err message), s).
Proof.
  intros Hp Hlen. unfold Api.register. rewrite Hp.
  destruct (Js.truthy (Body.username _)); [|by eexists].
  destruct (Js.truthy (Some pass)) as [p|] eqn:E; [|by eexists].
  assert (p = pass) as -> by (simpl in E; by case_match; simplify_eq).
  destruct (Nat.ltb_spec (String.length pass) 6); [by eexists|lia].
Qed.

Lemma Fn_register_stores_hash (w : world) (req : Fn.request) (s : Fn.store) name pass :
  connection w = None → Fn.method req = "POST" →
  Js.truthy (Body.username (Fn.body req)) = Some name →
  Js.truthy (Body.password (Fn.body req)) = Some pass →
  Mongo.findOne name (Fn.users s) = None →
  Fn.register w req s =
    inr (Fn.Response 200 (Fn.Message "User registered"),
         Fn.Store (Fn.users s ++ [User.Make (fresh w) name (bcrypt_hash pass 10 (salt w))])%list
                  (Fn.recipes s)).
Proof.
  intros Hc Hm Hn Hp Hfree. unfold Fn.register, Fn.dbConnect, Mongo.connect.
  rewrite Hc, Hm; simpl. by rewrite Hn, Hp, Hfree.
Qed.

(** The in-memory application stores the password as it was sent, and it
    takes a password of any length. *)
Lemma Mem_register_stores_password (w : world) (req : Mem.request) (s : Mem.state) :
  List.find (λ u, Json.strict_eq (Json.get "username" u) (Json.get "username" (Mem.body req)))
            (Mem.users s) = None →
  Mem.users (Mem.register w req s).2
  = (Mem.users s ++ [[("username", Json.get "username" (Mem.body req));
                      ("password", Json.get "password" (Mem.body req))]])%list
  ∧ Mem.status (Mem.register w req s).1 = 201.
Proof. intros Hfree. unfold Mem.register. by rewrite Hfree. Qed.

End credentials.

(** C6.  The login function ([api/auth-login.js]) answers an unknown user
    name with 400 and "User not found", and a wrong password for a known
    user with 401 and "Invalid password": the two failures can be told
    apart. *)
Theorem C6_login_function_tells_unknown_user_from_wrong_password :
  Fn.login (H:=table) w0 (Fn.Request "POST" None (sign_in "ghost" "secret1")) f0
  = inr (Fn.Response 400 (Fn.Err "User not found"), f0)
  ∧ Fn.login (H:=table) w0 (Fn.Request "POST" None (sign_in "alice" "wrong-password")) f0
    = inr (Fn.Response 401 (Fn.Err "Invalid password"), f0).
Proof.
  split.
  - by apply Fn_login_unknown.
  - by apply (Fn_login_wrong_password _ _ _ alice "wrong-password").
Qed.

(** C7.  The in-memory application stores the password of a new user as it
    was submitted: after registering with the password "secret1" the stored
    record has "secret1" as its [password]. *)
Theorem C7_in_memory_register_stores_clear_text :
  Mem.status (Mem.register (H:=table) w0 (Mem.Request None "0" (credentials "carol" "secret1")) m0).1
  = 201
  ∧ last (Mem.users (Mem.register (H:=table) w0
                       (Mem.Request None "0" (credentials "carol" "secret1")) m0).2)
    = Some (credentials "carol" "secret1").
Proof.
  destruct (Mem_register_stores_password (H:=table) w0
              (Mem.Request None "0" (credentials "carol" "secret1")) m0 eq_refl) as [-> ->].
  by rewrite last_snoc.
Qed.

(** C9.  The in-memory application and the register function accept a
    password of three characters: the user is created. *)
Theorem C9_short_password_accepted_by_two_variants :
  (Mem.status (Mem.register (H:=table) w0 (Mem.Request None "0" (credentials "carol" "abc")) m0).1
   = 201
   ∧ Mem.users (Mem.register (H:=table) w0 (Mem.Request None "0" (credentials "carol" "abc")) m0).2
     = (Mem.users m0 ++ [credentials "carol" "abc"])%list)
  ∧ Fn.register (H:=table) w0 (Fn.Request "POST" None (sign_in "carol" "abc")) f0
    = inr (Fn.Response 200 (Fn.Message "User registered"),
           Fn.Store (Fn.users f0 ++ [User.Make (fresh w0) "carol"
                                                (@bcrypt_hash table "abc" 10%nat (salt w0))])%list
                    (Fn.recipes f0)).
Proof. split; [split|]; by vm_compute. Qed.

(** * Further properties *)

(** ** Lists and objects *)

Lemma elem_of_insert_other {A} (l : list A) (k : nat) (x y r : A) :
  l !! k = Some x → r ≠ x → r ∈ l → r ∈ <[k := y]> l.
Proof.
  intros Hk Hne [j Hj]%list_elem_of_lookup.
  apply list_elem_of_lookup. exists j.
  rewrite list_lookup_insert_ne; [done|]. intros ->. congruence.
Qed.

Lemma elem_of_delete_other {A} (l : list A) (k : nat) (x r : A) :
  l !! k = Some x → r ≠ x → r ∈ l → r ∈ delete k l.
Proof.
  intros Hk Hne [j Hj]%list_elem_of_lookup.
  apply list_elem_of_lookup.
  destruct (decide (j < k)%nat) as [Hlt|Hge].
  - exists j. by rewrite list_lookup_delete_lt.
  - assert (j ≠ k) by (intros ->; congruence).
    exists (pred j). rewrite list_lookup_delete_ge by lia.
    by replace (S (pred j)) with j by lia.
Qed.

Lemma Json_get_set (k : string) (v : Json.t) (o : Json.obj) :
  Json.get k (Json.set k v o) = v.
Proof.
  unfold Json.get. induction o as [|[k' v'] o IH]; cbn -[String.eqb].
  - by rewrite String.eqb_refl.
  - destruct (String.eqb k' k) eqn:E; cbn -[String.eqb].
    + by rewrite String.eqb_refl.
    + by rewrite E.
Qed.

Lemma Json_get_set_ne (k k' : string) (v : Json.t) (o : Json.obj) :
  k' ≠ k → Json.get k' (Json.set k v o) = Json.get k' o.
Proof.
  intros Hne. unfold Json.get. induction o as [|[k0 v0] o IH]; cbn -[String.eqb].
  - assert (String.eqb k k' = false) as -> by (apply String.eqb_neq; congruence). done.
  - destruct (String.eqb k0 k) eqn:E; cbn -[String.eqb].
    + apply String.eqb_eq in E as ->.
      assert (String.eqb k k' = false) as -> by (apply String.eqb_neq; congruence). done.
    + destruct (String.eqb k0 k'); [done|apply IH].
Qed.

(** ** What a request can do to the recipes of others *)

Section frame.
Context `{Primitives}.

Lemma Api_update_spares (w : world) (req : Api.request) (s s' : db) res (r : Recipe.t) :
  (∀ user c, Api.authenticateToken w req = inr user →
             Recipe.createdBy r = Some c → Json.get "userId" user ≠ Json.Str c) →
  Api.update w req s = inr (res, s') →
  r ∈ recipes s → r ∈ recipes s'.
Proof.
  intros Hforeign. unfold Api.update, Api.owner_string, bind.
  destruct (Api.authenticateToken w req) as [|user] eqn:Ha; [done|].
  destruct (Api.valid_id _) as [i|]; [|by intros [= <- <-]].
  destruct (Mongo.findById i (recipes s)) as [|[recipe|]] eqn:Hf;
    [done| |by intros [= <- <-]].
  destruct (Recipe.createdBy recipe) as [owner|] eqn:Ho; [|done].
  destruct (Json.strict_eq _ _) eqn:Heq; simpl; [|by intros [= <- <-]].
  apply strict_eq_Str in Heq.
  destruct (findById_Some _ _ _ Hf) as (o & k & Hcast & Hidx & Hk).
  unfold Mongo.findByIdAndUpdate, bind. rewrite Hcast, Hidx.
  intros E Hr.
  assert (∃ y, recipes s' = <[k := y]> (recipes s)) as [y ->].
  { repeat case_match; simplify_eq; simpl; eauto. }
  apply (elem_of_insert_other _ _ recipe); [done| |done].
  intros ->. by eapply Hforeign.
Qed.

Lemma Api_delete_spares (w : world) (req : Api.request) (s s' : db) res (r : Recipe.t) :
  (∀ user c, Api.authenticateToken w req = inr user →
             Recipe.createdBy r = Some c → Json.get "userId" user ≠ Json.Str c) →
  Api.delete_recipe w req s = inr (res, s') →
  r ∈ recipes s → r ∈ recipes s'.
Proof.
  intros Hforeign. unfold Api.delete_recipe, Api.owner_string, bind.
  destruct (Api.authenticateToken w req) as [|user] eqn:Ha; [done|].
  destruct (Api.valid_id _) as [i|]; [|by intros [= <- <-]].
  destruct (Mongo.findById i (recipes s)) as [|[recipe|]] eqn:Hf;
    [done| |by intros [= <- <-]].
  destruct (Recipe.createdBy recipe) as [owner|] eqn:Ho; [|done].
  destruct (Json.strict_eq _ _) eqn:Heq; simpl; [|by intros [= <- <-]].
  apply strict_eq_Str in Heq.
  destruct (findById_Some _ _ _ Hf) as (o & k & Hcast & Hidx & Hk).
  unfold Mongo.findByIdAndDelete. rewrite Hcast, Hidx.
  intros [= <- <-] Hr. simpl.
  apply (elem_of_delete_other _ _ recipe); [done| |done].
  intros ->. by eapply Hforeign.
Qed.

(** X1. Whatever is asked of the serverless handler, a stored recipe stays
    in the store, unchanged, unless the request carries a token that
    verifies and whose [userId] is the [createdBy] of that recipe. *)
Theorem Api_recipes_of_others_persist (w : world) (req : Api.request) (s : db)
    (r : Recipe.t) :
  r ∈ recipes s →
  (∀ user c, Api.authenticateToken w req = inr user →
             Recipe.createdBy r = Some c → Json.get "userId" user ≠ Json.Str c) →
  r ∈ recipes (Api.handler w req s).2.
Proof.
  intros Hr Hforeign. unfold Api.handler. case_match; [done|].
  destruct (Api.route w req s) as [e|[res s']] eqn:E; [done|]. simpl.
  unfold Api.route in E. repeat case_match; simplify_eq; try done.
  all: unfold bind in E; destruct (Mongo.connect w) as [|[]]; [done|].
  all: repeat case_match; simplify_eq; try done.
  - unfold Api.register in E. repeat case_match; by simplify_eq.
  - unfold Api.login in E. repeat case_match; by simplify_eq.
  - unfold Api.list_recipes, bind in E. repeat case_match; by simplify_eq.
  - unfold Api.create, bind in E. repeat case_match; simplify_eq; try done.
    simpl. apply elem_of_app. by left.
  - unfold Api.get_recipe, bind in E. repeat case_match; by simplify_eq.
  - by eapply Api_update_spares.
  - by eapply Api_delete_spares.
Qed.

End frame.

Lemma X1_witness : tea ∈ recipes (Api.handler (H:=table) w0 (delete_tea "bob") s0).2.
Proof.
  apply (Api_recipes_of_others_persist (H:=table) w0 (delete_tea "bob") s0 tea).
  - by apply list_elem_of_singleton.
  - intros user c [= <-] [= <-]. discriminate.
Defined.

Section frame_in_memory.
Context `{Primitives}.

(** X2. In the in-memory application an update or a delete leaves every
    record in place whose [createdBy] is not the [username] of the verified
    token; without a token that verifies it leaves all of them. *)
Theorem Mem_records_of_others_persist (w : world) (req : Mem.request) (s : Mem.state)
    (r : Json.obj) :
  r ∈ Mem.recipes s →
  (∀ token user, bearer (Mem.authorization req) = Some token →
                 jwt_verify token (now w) = Verified user →
                 Json.strict_eq (Json.get "createdBy" r) (Json.get "username" user) = false) →
  r ∈ Mem.recipes (Mem.put_recipe w req s).2 ∧ r ∈ Mem.recipes (Mem.delete_recipe w req s).2.
Proof.
  intros Hr Hforeign.
  unfold Mem.put_recipe, Mem.delete_recipe, Mem.authenticateToken.
  destruct (bearer _) as [token|]; [|done].
  destruct (jwt_verify token (now w)) as [user| |] eqn:Hv; [|done..].
  specialize (Hforeign token user eq_refl Hv).
  destruct (Mem.findIndex _ _) as [[k recipe]|] eqn:Hf; [|done].
  apply list_find_Some in Hf as (Hk & _ & _).
  destruct (Json.strict_eq (Json.get "createdBy" recipe) _) eqn:Heq; [|done]. simpl.
  assert (r ≠ recipe) by (intros ->; congruence).
  split; [by eapply elem_of_insert_other|by eapply elem_of_delete_other].
Qed.

End frame_in_memory.

Lemma X2_witness :
  m_tea ∈ Mem.recipes (Mem.put_recipe (H:=table) w0 (mem_tea "bob" [("title", Json.Str "Mud")]) m0).2
  ∧ m_tea ∈ Mem.recipes
      (Mem.delete_recipe (H:=table) w0 (mem_tea "bob" [("title", Json.Str "Mud")]) m0).2.
Proof.
  apply (Mem_records_of_others_persist (H:=table) w0 _ m0 m_tea).
  - by apply list_elem_of_singleton.
  - by intros token user [= <-] [= <-].
Defined.

(** ** Users *)

Section users.
Context `{Primitives}.

Lemma findOne_None (name : string) (us : list User.t) :
  Mongo.findOne name us = None → name ∉ User.username <$> us.
Proof.
  unfold Mongo.findOne. induction us as [|u us IH]; simpl; [intros _; apply not_elem_of_nil|].
  case_bool_decide as Hu; [done|]. intros Hnone. rewrite not_elem_of_cons. auto.
Qed.

Lemma findOne_app_new (name : string) (us : list User.t) (u : User.t) :
  Mongo.findOne name us = None → User.username u = name →
  Mongo.findOne name (us ++ [u])%list = Some u.
Proof.
  unfold Mongo.findOne. intros Hnone Hu. induction us as [|u' us IH]; simpl in *.
  - by rewrite bool_decide_eq_true_2.
  - case_bool_decide; [done|]. by apply IH.
Qed.

(** What a request can do to the users: nothing, or add one whose name is
    not taken. *)
Lemma Api_users_step (w : world) (req : Api.request) (s : db) :
  users (Api.handler w req s).2 = users s
  ∨ ∃ u, Mongo.findOne (User.username u) (users s) = None
         ∧ User._id u = fresh w
         ∧ users (Api.handler w req s).2 = (users s ++ [u])%list.
Proof.
  unfold Api.handler. case_match; [by left|].
  destruct (Api.route w req s) as [e|[res s']] eqn:E; [by left|]. simpl.
  unfold Api.route in E. repeat case_match; simplify_eq; try by left.
  all: unfold bind in E; destruct (Mongo.connect w) as [|[]]; [done|].
  all: repeat case_match; simplify_eq; try by left.
  - unfold Api.register in E. repeat case_match; simplify_eq; try by left.
    right. by eexists (User.Make _ _ _).
  - unfold Api.login in E. repeat case_match; simplify_eq; by left.
  - unfold Api.list_recipes, bind in E. repeat case_match; simplify_eq; by left.
  - unfold Api.create, bind in E. repeat case_match; simplify_eq; by left.
  - unfold Api.get_recipe, bind in E. repeat case_match; simplify_eq; by left.
  - unfold Api.update, bind in E. repeat case_match; simplify_eq; by left.
  - unfold Api.delete_recipe, bind in E. repeat case_match; simplify_eq; by left.
Qed.

(** X3. The serverless handler never changes and never removes a user: the
    users before a request are the first users after it, in the same
    order. *)
Theorem Api_users_only_grow (w : world) (req : Api.request) (s : db) :
  users s `prefix_of` users (Api.handler w req s).2.
Proof.
  destruct (Api_users_step w req s) as [->|(u & _ & _ & ->)]; [done|].
  by apply prefix_app_r.
Qed.

(** X4. User names stay unique: when no two stored users have the same
    name, no request to the serverless handler makes two have. *)
Theorem Api_usernames_stay_unique (w : world) (req : Api.request) (s : db) :
  NoDup (User.username <$> users s) →
  NoDup (User.username <$> users (Api.handler w req s).2).
Proof.
  intros Hnodup. destruct (Api_users_step w req s) as [->|(u & Hfree & _ & ->)]; [done|].
  rewrite fmap_app. apply NoDup_app. split_and!; [done| |apply NoDup_singleton].
  intros name Hin ->%list_elem_of_singleton. by apply findOne_None in Hfree.
Qed.

End users.

Lemma X4_witness :
  NoDup (User.username <$> users (Api.handler (H:=table) w0
    (Api.Request "POST" "/api/auth/register" None None None (sign_in "alice" "another1")) s0).2).
Proof.
  apply (Api_usernames_stay_unique (H:=table)).
  apply (bool_decide_unpack _). by vm_compute.
Defined.

(** ** Registering and logging in *)

Section sessions.
Context `{Primitives}.

(** X5. Registering and then logging in with the same body succeeds, when
    the hash library accepts the password it has hashed: the login answers
    200 with a token signed for the identifier and the name of the new
    user.  A second registration under the same name is refused with 400
    whatever its password: for its length when that is below 6, and as a
    name already taken otherwise.  The passwords are strings of ASCII
    characters. *)
Theorem Api_register_then_login (w w' : world) (s : db) (b b' : Body.t) name pass pass'
    a pg l :
  connection w = None → connection w' = None →
  Js.truthy (Body.username b) = Some name →
  Js.truthy (Body.password b) = Some pass →
  Js.is_ascii pass = true →
  (6 ≤ String.length pass)%nat →
  Mongo.findOne name (users s) = None →
  bcrypt_compare pass (bcrypt_hash pass 12 (salt w)) = true →
  Js.truthy (Body.username b') = Some name →
  Js.truthy (Body.password b') = Some pass' →
  Js.is_ascii pass' = true →
  ∃ s', Api.handler w (Api.Request "POST" "/api/auth/register" a pg l b) s
        = (Api.Response 201 (Api.Registered (fresh w)), s')
    ∧ Api.handler w' (Api.Request "POST" "/api/auth/login" a pg l b) s'
      = (Api.Response 200
           (Api.LoggedIn (jwt_sign [("userId", Json.Str (fresh w)); ("username", Json.Str name)]
                                   (now w') "24h")
                         (fresh w) name), s')
    ∧ Api.handler w' (Api.Request "POST" "/api/auth/register" a pg l b') s'
      = (Api.Response 400
           (Api.Err (if (String.length pass' <? 6)%nat
                     then "Password must be at least 6 characters"
                     else "Username already exists")), s').
Proof.
  intros Hc Hc' Hn Hp _ Hlen Hfree Hcmp Hn' Hp' _.
  set (u := User.Make (fresh w) name (bcrypt_hash pass 12 (salt w))).
  exists (Db (users s ++ [u]) (recipes s)).
  assert (Mongo.findOne name (users s ++ [u]) = Some u) as Hfound
    by by apply findOne_app_new.
  split_and!.
  - unfold Api.handler, Api.route, Mongo.connect. rewrite Hc; simpl.
    rewrite (Api_register_stores_hash w _ s name pass); done.
  - unfold Api.handler, Api.route, Mongo.connect. rewrite Hc'; simpl.
    unfold Api.login; simpl. rewrite Hn, Hp, Hfound; simpl. by rewrite Hcmp.
  - unfold Api.handler, Api.route, Mongo.connect. rewrite Hc'; simpl.
    unfold Api.register; simpl. rewrite Hn', Hp'.
    destruct (String.length pass' <? 6)%nat; [done|]. by rewrite Hfound.
Qed.

End sessions.

Lemma X5_witness :
  ∃ s', Api.handler (H:=table) w0
          (Api.Request "POST" "/api/auth/register" None None None (sign_in "carol" "secret1")) s0
        = (Api.Response 201 (Api.Registered (fresh w0)), s')
    ∧ Api.handler (H:=table) w0
        (Api.Request "POST" "/api/auth/login" None None None (sign_in "carol" "secret1")) s'
      = (Api.Response 200 (Api.LoggedIn "carol.jwt" (fresh w0) "carol"), s')
    ∧ Api.handler (H:=table) w0
        (Api.Request "POST" "/api/auth/register" None None None (sign_in "carol" "pw2")) s'
      = (Api.Response 400 (Api.Err "Password must be at least 6 characters"), s').
Proof.
  apply (Api_register_then_login (H:=table) w0 w0 s0 (sign_in "carol" "secret1")
           (sign_in "carol" "pw2") "carol" "secret1" "pw2");
    try reflexivity; simpl; lia.
Defined.

(** ** Recipes by identifier *)

Lemma hex_split (sep : ascii) (s o : string) :
  ObjectId.is_hex sep = false → ObjectId.hex s = Some o → Js.split sep s = [s].
Proof.
  intros Hsep. revert o. induction s as [|c s IH]; intros o; simpl; [done|].
  destruct (ObjectId.is_hex c) eqn:Hc; [|done].
  destruct (ObjectId.hex s) as [o'|]; [|done]. intros _.
  destruct (Ascii.eqb c sep) eqn:E.
  - apply Ascii.eqb_eq in E. congruence.
  - by rewrite (IH o').
Qed.

Lemma cast_hex (i o : string) : ObjectId.cast i = Some o → ObjectId.hex i = Some o.
Proof. unfold ObjectId.cast. by case_match. Qed.

(** The path of a recipe is read back as its identifier. *)
Lemma valid_id_path (i o : string) :
  ObjectId.cast i = Some o → Api.valid_id ("/api/recipes/" ++ i) = Some i.
Proof.
  intros Hcast. unfold Api.valid_id.
  assert (Js.split "/" ("/api/recipes/" ++ i) = [EmptyString; "api"; "recipes"; i]) as ->.
  { pose proof (hex_split "/" i o eq_refl (cast_hex _ _ Hcast)) as Hi.
    simpl. change (EmptyString +:+ i) with i. by rewrite Hi. }
  cbn -[ObjectId.isValid]. unfold ObjectId.isValid. by rewrite Hcast.
Qed.

Lemma prefix_app (p i : string) : String.prefix p (p ++ i) = true.
Proof.
  induction p as [|c p IH].
  - change (EmptyString ++ i) with i. by destruct i.
  - change (String c p ++ i) with (String c (p ++ i)). simpl.
    by destruct (ascii_dec c c).
Qed.

Lemma prefix_path (i : string) : String.prefix "/api/recipes/" ("/api/recipes/" ++ i) = true.
Proof. apply prefix_app. Qed.

Lemma prefix_not_route (p : string) :
  String.prefix "/api/recipes/" p = true →
  String.eqb p "/" = false ∧ String.eqb p "/api/health" = false
  ∧ String.eqb p "/api/recipes" = false.
Proof.
  intros Hp. split_and!; apply String.eqb_neq; intros ->; discriminate.
Qed.

Lemma index_of_app_new (o : string) (rs : list Recipe.t) (r : Recipe.t) :
  o ∉ Recipe._id <$> rs → Recipe._id r = o →
  Mongo.index_of o (rs ++ [r]) = Some (length rs, r).
Proof.
  intros Hfresh Hr. unfold Mongo.index_of.
  rewrite list_find_app_r.
  { simpl. rewrite decide_True by done. simpl. done. }
  apply list_find_None, Forall_forall. intros x Hx ?. apply Hfresh.
  apply list_elem_of_fmap. by exists x.
Qed.

Lemma NoDup_fmap_eq {A B} (f : A → B) (l : list A) (x y : A) :
  NoDup (f <$> l) → x ∈ l → y ∈ l → f x = f y → x = y.
Proof.
  intros Hnodup [i Hi]%list_elem_of_lookup [j Hj]%list_elem_of_lookup Hf.
  assert (i = j) as ->; [|congruence].
  eapply (NoDup_lookup _ _ _ (f x) Hnodup); rewrite list_lookup_fmap.
  - by rewrite Hi.
  - by rewrite Hj, Hf.
Qed.

(** With unique identifiers, looking a user up by identifier finds it. *)
Lemma find_by_id (us : list User.t) (u : User.t) :
  NoDup (User._id <$> us) → u ∈ us →
  List.find (λ v, bool_decide (User._id v = User._id u)) us = Some u.
Proof.
  intros Hnodup Hu.
  destruct (List.find _ us) as [v|] eqn:E.
  - apply List.find_some in E as [Hv E%bool_decide_eq_true].
    f_equal. apply (NoDup_fmap_eq User._id us); [done|by apply list_elem_of_In|done|done].
  - assert (In u us) as Hin by by apply list_elem_of_In.
    pose proof (List.find_none _ _ E u Hin) as Hnot.
    by rewrite bool_decide_eq_false in Hnot.
Qed.

Section by_identifier.
Context `{Primitives}.

Lemma Api_route_get (w : world) (req : Api.request) (s : db) :
  connection w = None → Api.method req = "GET" →
  String.prefix "/api/recipes/" (Api.path req) = true →
  Api.handler w req s =
    match Api.get_recipe req s with inr out => out | inl e => (Api.rescue e, s) end.
Proof.
  intros Hc Hm Hp. destruct (prefix_not_route _ Hp) as (E1 & E2 & E3).
  unfold Api.handler, Api.route, Mongo.connect.
  rewrite Hc, Hm, Hp, E1, E2, E3. reflexivity.
Qed.

(** X6. A recipe that has been created is read back: after a successful
    create, a GET of [/api/recipes/] followed by the new identifier
    answers 200 with the recipe that the create answered.  With it comes
    the identifier and the name of its owner when the [userId] of the token
    is the identifier of a stored user (user identifiers being unique), and
    [null] in place of the owner when it is the identifier of none. *)
Theorem Api_create_then_get (w w' : world) (req : Api.request) (s : db) (user : claims)
    title instructions owner a pg l b :
  connection w = None → connection w' = None →
  Api.method req = "POST" → Api.path req = "/api/recipes" →
  Api.authenticateToken w req = inr user →
  Js.truthy (Body.title (Api.body req)) = Some title →
  Js.truthy (Body.instructions (Api.body req)) = Some instructions →
  Mongo.reference ValidationError (Json.get "userId" user) = inr owner →
  ObjectId.cast (fresh w) = Some (fresh w) →
  fresh w ∉ Recipe._id <$> recipes s →
  NoDup (User._id <$> users s) →
  ∃ recipe s',
    Api.handler w req s = (Api.Response 201 (Api.Created recipe), s')
    ∧ Recipe.title recipe = title ∧ Recipe.instructions recipe = instructions
    ∧ Recipe.createdBy recipe = owner ∧ Recipe.createdAt recipe = now w
    ∧ (∀ u, u ∈ users s → owner = Some (User._id u) →
         Api.handler w' (Api.Request "GET" ("/api/recipes/" ++ fresh w) a pg l b) s'
         = (Api.Response 200 (Api.Found (recipe, Some (User._id u, User.username u))), s'))
    ∧ ((∀ u, u ∈ users s → owner ≠ Some (User._id u)) →
         Api.handler w' (Api.Request "GET" ("/api/recipes/" ++ fresh w) a pg l b) s'
         = (Api.Response 200 (Api.Found (recipe, None)), s')).
Proof.
  intros Hc Hc' Hm Hp Ha Ht Hi Ho Hcast Hfresh Hnodup.
  eexists (Recipe.Make (fresh w) title _ instructions _ _ owner (now w)), (Db _ _).
  assert (∀ recipe,
            recipe = Recipe.Make (fresh w) title (default [] (Body.ingredients (Api.body req)))
                       instructions (Body.cookingTime (Api.body req))
                       (Body.servings (Api.body req)) owner (now w) →
            Api.handler w' (Api.Request "GET" ("/api/recipes/" ++ fresh w) a pg l b)
              (Db (users s) (recipes s ++ [recipe]))
            = (Api.Response 200 (Api.Found (Mongo.populate (users s) recipe)),
               Db (users s) (recipes s ++ [recipe]))) as Hget.
  { intros recipe ->. rewrite Api_route_get; [|done|done|apply prefix_path].
    unfold Api.get_recipe. cbn [Api.path]. rewrite (valid_id_path _ _ Hcast).
    unfold Mongo.findById. rewrite Hcast. cbn [recipes].
    by rewrite index_of_app_new. }
  split_and!; try reflexivity.
  - unfold Api.handler, Api.route, Mongo.connect. rewrite Hc, Hm, Hp; simpl.
    unfold Api.create. rewrite Ha; simpl. by rewrite Ht, Hi, Ho.
  - intros u Hu ->. rewrite Hget by done. unfold Mongo.populate. simpl.
    by rewrite (find_by_id _ u).
  - intros Hnone. rewrite Hget by done. unfold Mongo.populate. simpl.
    destruct owner as [c|]; [|done]. simpl.
    destruct (List.find _ _) as [u|] eqn:E; [|done].
    apply List.find_some in E as [Hu E%bool_decide_eq_true].
    destruct (Hnone u); [by apply list_elem_of_In|by rewrite E].
Qed.

End by_identifier.

Lemma X6_witness :
  ∃ recipe s',
    Api.handler (H:=table) w0
      (Api.Request "POST" "/api/recipes" (Some "Bearer bob.jwt") None None
         (Body.Make None None (Some "Soup") None (Some "Simmer") None None None None)) s0
    = (Api.Response 201 (Api.Created recipe), s')
    ∧ Recipe.title recipe = "Soup" ∧ Recipe.instructions recipe = "Simmer"
    ∧ Recipe.createdBy recipe = Some bob_id ∧ Recipe.createdAt recipe = now w0
    ∧ Api.handler (H:=table) w0
        (Api.Request "GET" ("/api/recipes/" ++ fresh w0) None None None Body.empty) s'
      = (Api.Response 200 (Api.Found (recipe, Some (bob_id, "bob"))), s').
Proof.
  destruct (Api_create_then_get (H:=table) w0 w0
              (Api.Request "POST" "/api/recipes" (Some "Bearer bob.jwt") None None
                 (Body.Make None None (Some "Soup") None (Some "Simmer") None None None None))
              s0 bob_claims "Soup" "Simmer" (Some bob_id) None None None Body.empty)
    as (recipe & s' & Hcreate & Ht & Hi & Ho & Hat & Hfound & _);
    try reflexivity; try (apply (bool_decide_unpack _); by vm_compute).
  exists recipe, s'. split_and!; try done.
  apply (Hfound bob); [|reflexivity].
  apply list_elem_of_In. right. by left.
Defined.

(** ** Identifiers stay unique *)

Section identifiers.
Context `{Primitives}.

(** What a request can do to the recipes: nothing, add one under the fresh
    identifier, rewrite one under its identifier, or remove one. *)
Lemma Api_recipes_step (w : world) (req : Api.request) (s : db) :
  recipes (Api.handler w req s).2 = recipes s
  ∨ (∃ r, Recipe._id r = fresh w ∧ recipes (Api.handler w req s).2 = (recipes s ++ [r])%list)
  ∨ (∃ k r r', recipes s !! k = Some r ∧ Recipe._id r' = Recipe._id r
               ∧ recipes (Api.handler w req s).2 = <[k := r']> (recipes s))
  ∨ (∃ k, recipes (Api.handler w req s).2 = delete k (recipes s)).
Proof.
  unfold Api.handler. case_match; [by left|].
  destruct (Api.route w req s) as [e|[res s']] eqn:E; [by left|]. simpl.
  unfold Api.route in E. repeat case_match; simplify_eq; try by left.
  all: unfold bind in E; destruct (Mongo.connect w) as [|[]]; [done|].
  all: repeat case_match; simplify_eq; try by left.
  - unfold Api.register in E. repeat case_match; simplify_eq; by left.
  - unfold Api.login in E. repeat case_match; simplify_eq; by left.
  - unfold Api.list_recipes, bind in E. repeat case_match; simplify_eq; by left.
  - unfold Api.create, bind in E. repeat case_match; simplify_eq; try by left.
    right; left. by eexists (Recipe.Make _ _ _ _ _ _ _ _).
  - unfold Api.get_recipe, bind in E. repeat case_match; simplify_eq; by left.
  - unfold Api.update, Mongo.findByIdAndUpdate in E. unfold bind in E.
    repeat case_match; simplify_eq; try by left.
    all: right; right; left.
    all: match goal with Hf : Mongo.index_of _ _ = Some (?k, ?r) |- _ =>
      apply list_find_Some in Hf as (Hk & _ & _); exists k, r end.
    all: eexists; split; [done|]; split; [|reflexivity]; done.
  - unfold Api.delete_recipe, Mongo.findByIdAndDelete in E. unfold bind in E.
    repeat case_match; simplify_eq; try by left.
    right; right; right. by eexists.
Qed.

(** X7. Recipe identifiers stay unique: when no two stored recipes have
    the same identifier and the identifier the driver gives next is not in
    use, no request to the serverless handler makes two recipes share
    one. *)
Theorem Api_recipe_identifiers_stay_unique (w : world) (req : Api.request) (s : db) :
  NoDup (Recipe._id <$> recipes s) →
  fresh w ∉ Recipe._id <$> recipes s →
  NoDup (Recipe._id <$> recipes (Api.handler w req s).2).
Proof.
  intros Hnodup Hfresh.
  destruct (Api_recipes_step w req s)
    as [->|[(r & Hr & ->)|[(k & r & r' & Hk & Hid & ->)|(k & ->)]]]; [done| | |].
  - rewrite fmap_app. apply NoDup_app. split_and!; [done| |apply NoDup_singleton].
    intros i Hi ->%list_elem_of_singleton. simpl in Hi. congruence.
  - rewrite list_fmap_insert, Hid, list_insert_id; [done|].
    by rewrite list_lookup_fmap, Hk.
  - rewrite list_fmap_delete. eapply sublist_NoDup; [done|apply sublist_delete].
Qed.

End identifiers.

Lemma X7_witness :
  NoDup (Recipe._id <$> recipes (Api.handler (H:=table) w0
    (Api.Request "POST" "/api/recipes" (Some "Bearer bob.jwt") None None
       (Body.Make None None (Some "Soup") None (Some "Simmer") None None None None)) s25).2).
Proof.
  apply (Api_recipe_identifiers_stay_unique (H:=table));
    apply (bool_decide_unpack _); by vm_compute.
Defined.

(** ** Deleting and updating twice *)

Lemma index_of_delete (o : string) (rs : list Recipe.t) (k : nat) (r : Recipe.t) :
  NoDup (Recipe._id <$> rs) →
  Mongo.index_of o rs = Some (k, r) →
  Mongo.index_of o (delete k rs) = None.
Proof.
  intros Hnodup (Hk & Hr & _)%list_find_Some.
  apply list_find_None, Forall_forall. intros x [j Hj]%list_elem_of_lookup Hx.
  rewrite list_lookup_delete in Hj.
  assert ((if decide (j < k)%nat then j else S j) = k) as Hjk.
  { eapply (NoDup_lookup _ _ _ o Hnodup); rewrite list_lookup_fmap.
    - by rewrite Hj; simpl; rewrite Hx.
    - by rewrite Hk; simpl; rewrite Hr. }
  case_decide; lia.
Qed.

Lemma index_of_insert (o : string) (rs : list Recipe.t) (k : nat) (r r' : Recipe.t) :
  Mongo.index_of o rs = Some (k, r) → Recipe._id r' = o →
  Mongo.index_of o (<[k := r']> rs) = Some (k, r').
Proof.
  unfold Mongo.index_of. revert k. induction rs as [|x rs IH]; intros k; [done|].
  simpl. case_decide as Hx.
  - intros [= <- <-] Hr. simpl. by rewrite decide_True.
  - destruct (list_find _ rs) as [[j y]|] eqn:E; simpl; [|done].
    intros [= <- <-] Hr. simpl. rewrite decide_False by done.
    by rewrite (IH j eq_refl Hr).
Qed.

Lemma set_fields_twice (o : option string) (b : Body.t) (r : Recipe.t) :
  Mongo.set_fields o b (Mongo.set_fields o b r) = Mongo.set_fields o b r.
Proof.
  unfold Mongo.set_fields. destruct b as [????? ct sv ???]; simpl.
  by destruct title, ingredients, instructions, ct, sv, o, createdAt.
Qed.

Lemma rescue_not_ok (e : exn) (s s' : db) (r : Api.reply) :
  (Api.rescue e, s) ≠ (Api.Response 200 r, s').
Proof.
  intros E. apply (f_equal (λ p, Api.status p.1)) in E. simpl in E.
  destruct (Api_rescue_status e); lia.
Qed.

Section twice.
Context `{Primitives}.

(** X8. What has been deleted is gone: when recipe identifiers are unique
    and a DELETE is answered 200, a GET of the same path afterwards is
    answered 404. *)
Theorem Api_delete_then_get (w w' : world) (req : Api.request) (s s' : db) a pg l b :
  NoDup (Recipe._id <$> recipes s) →
  connection w' = None →
  Api.method req = "DELETE" →
  Api.handler w req s = (Api.Response 200 Api.Deleted, s') →
  Api.handler w' (Api.Request "GET" (Api.path req) a pg l b) s'
  = (Api.Response 404 (Api.Err "Recipe not found"), s').
Proof.
  intros Hnodup Hc' Hm Hdel.
  unfold Api.handler, Api.route in Hdel. rewrite Hm in Hdel. simpl in Hdel.
  unfold bind in Hdel. destruct (Mongo.connect w) as [e|[]];
    [by apply rescue_not_ok in Hdel|].
  destruct (String.prefix _ _) eqn:Hp; [|done].
  unfold Api.delete_recipe, Api.owner_string, bind in Hdel.
  destruct (Api.authenticateToken w req) as [e|user];
    [by apply rescue_not_ok in Hdel|].
  destruct (Api.valid_id _) as [i|] eqn:Hi; [|done].
  destruct (Mongo.findById i (recipes s)) as [e|[recipe|]] eqn:Hf;
    [by apply rescue_not_ok in Hdel| |done].
  destruct (Recipe.createdBy recipe); [|by apply rescue_not_ok in Hdel].
  destruct (negb _); [done|].
  destruct (findById_Some _ _ _ Hf) as (o & k & Hcast & Hidx & Hk).
  unfold Mongo.findByIdAndDelete in Hdel. rewrite Hcast, Hidx in Hdel.
  injection Hdel as <-.
  rewrite Api_route_get by done. unfold Api.get_recipe. cbn [Api.path recipes].
  rewrite Hi. unfold Mongo.findById. rewrite Hcast.
  by rewrite (index_of_delete o _ k recipe).
Qed.

(** X9. An update whose body has plain keys only, no update operator, sent
    twice leaves the store as the first one left it (the second answer can
    differ: it is 403 when the first update gave the recipe away). *)
Theorem Api_update_twice (w : world) (req : Api.request) (s : db) :
  Api.method req = "PUT" →
  Body.operators (Api.body req) = [] →
  (Api.handler w req (Api.handler w req s).2).2 = (Api.handler w req s).2.
Proof.
  intros Hm Hops. unfold Api.handler, Api.route. rewrite Hm. simpl.
  destruct (Mongo.connect w) as [e|[]]; [done|]. simpl.
  destruct (String.prefix _ _); [|done].
  destruct (Api.update w req s) as [e|[res s1]] eqn:E1; simpl;
    [by rewrite E1|].
  destruct (Api.update w req s1) as [e|[res2 s2]] eqn:E2; simpl; [done|].
  revert E1 E2. unfold Api.update, Api.owner_string, bind.
  destruct (Api.authenticateToken w req) as [|user]; [done|].
  destruct (Api.valid_id _) as [i|]; [|intros; by simplify_eq].
  destruct (Mongo.findById i (recipes s)) as [|[recipe|]] eqn:Hf; [done| |].
  2:{ intros ?; simplify_eq. rewrite Hf. intros; by simplify_eq. }
  destruct (Recipe.createdBy recipe) as [owner|] eqn:Ho; [|done].
  destruct (negb _) eqn:Heq.
  { intros ?; simplify_eq. rewrite Hf, Ho, Heq. intros; by simplify_eq. }
  destruct (findById_Some _ _ _ Hf) as (o & k & Hcast & Hidx & Hk).
  unfold Mongo.findByIdAndUpdate at 1. rewrite Hcast, Hops. unfold bind.
  destruct (Mongo.reference _ _) as [|own] eqn:Hown; [done|]. rewrite Hidx.
  intros ?; simplify_eq. cbn [recipes users].
  set (r' := Mongo.set_fields own (Api.body req) recipe).
  assert (Mongo.index_of o (<[k := r']> (recipes s)) = Some (k, r')) as Hidx'.
  { apply index_of_insert with recipe; [done|].
    by apply list_find_Some in Hidx as (_ & ? & _). }
  unfold Mongo.findById. rewrite Hcast, Hidx'. cbn [fmap option_fmap option_map snd].
  destruct (Recipe.createdBy r') as [owner'|]; [|done].
  unfold Mongo.findByIdAndUpdate. rewrite Hcast, Hops, Hown. unfold bind. rewrite Hidx'.
  assert (Mongo.set_fields own (Api.body req) r' = r') as -> by apply set_fields_twice.
  rewrite list_insert_insert_eq.
  destruct (negb (Json.strict_eq (Json.Str owner') _)); intros; by simplify_eq.
Qed.

End twice.

Lemma X8_witness :
  Api.handler (H:=table) w0
    (Api.Request "GET" (Api.path (delete_tea "alice")) None None None Body.empty)
    (Db (users s0) [])
  = (Api.Response 404 (Api.Err "Recipe not found"), Db (users s0) []).
Proof.
  apply (Api_delete_then_get (H:=table) w0 w0 (delete_tea "alice") s0); try reflexivity.
  apply (bool_decide_unpack _). by vm_compute.
Defined.

Lemma X9_witness :
  (Api.handler (H:=table) w0 (put_tea "alice" (give_to bob_id))
     (Api.handler (H:=table) w0 (put_tea "alice" (give_to bob_id)) s0).2).2
  = (Api.handler (H:=table) w0 (put_tea "alice" (give_to bob_id)) s0).2.
Proof. by apply (Api_update_twice (H:=table)). Defined.

(** ** Requests that only read, and requests without a database *)

Section quiet.
Context `{Primitives}.

(** X10. A GET, a preflight request and a login never change the store. *)
Theorem Api_reads_change_nothing (w : world) (req : Api.request) (s : db) :
  Api.method req = "GET" ∨ Api.method req = "OPTIONS"
  ∨ (Api.method req = "POST" ∧ Api.path req = "/api/auth/login") →
  (Api.handler w req s).2 = s.
Proof.
  intros Hread. unfold Api.handler. case_match; [done|].
  destruct (Api.route w req s) as [e|[res s']] eqn:E; [done|]. simpl.
  unfold Api.route, bind in E.
  destruct Hread as [Hm|[Hm|[Hm Hp]]]; rewrite Hm in *; try rewrite Hp in E;
    simpl in *; try done.
  - repeat case_match; simplify_eq; try done.
    + unfold Api.list_recipes, bind in E. repeat case_match; by simplify_eq.
    + unfold Api.get_recipe, bind in E. repeat case_match; by simplify_eq.
  - repeat case_match; simplify_eq.
    unfold Api.login in E. repeat case_match; by simplify_eq.
Qed.

(** X11. When the database cannot be reached the welcome page and the
    health check still answer 200; every other route (the preflight apart)
    answers as the catch block does for the connection error, and the store
    is not touched. *)
Theorem Api_database_down (w : world) (req : Api.request) (s : db) (e : exn) :
  connection w = Some e →
  (Api.method req = "GET" → Api.path req = "/" →
   Api.handler w req s = (Api.Response 200 Api.Welcome, s))
  ∧ (Api.method req = "GET" → Api.path req = "/api/health" →
     Api.handler w req s = (Api.Response 200 (Api.Health (now w)), s))
  ∧ (Api.method req ≠ "OPTIONS" →
     ¬ (Api.method req = "GET" ∧ (Api.path req = "/" ∨ Api.path req = "/api/health")) →
     Api.handler w req s = (Api.rescue e, s)).
Proof.
  intros Hc. unfold Api.handler, Api.route, Mongo.connect. rewrite Hc. split_and!.
  - by intros -> ->.
  - by intros -> ->.
  - intros Hopt Hpub. apply String.eqb_neq in Hopt as ->.
    destruct (String.eqb_spec (Api.method req) "GET") as [Hm|_]; simpl; [|done].
    destruct (String.eqb_spec (Api.path req) "/") as [Hp|_]; [by destruct Hpub; auto|].
    destruct (String.eqb_spec (Api.path req) "/api/health") as [Hp|_]; [|done].
    by destruct Hpub; auto.
Qed.

End quiet.

Lemma X10_witness :
  (Api.handler (H:=table) w0
     (Api.Request "POST" "/api/auth/login" None None None (sign_in "alice" "secret1")) s0).2 = s0.
Proof. apply (Api_reads_change_nothing (H:=table)). right; right. by split. Defined.

Lemma X11_witness :
  Api.handler (H:=table) (World 0 "0" "0" (Some MongoError)) (put_tea "alice" (just "Chai")) s0
  = (Api.Response 500 (Api.Internal MongoError), s0).
Proof.
  apply (Api_database_down (H:=table) (World 0 "0" "0" (Some MongoError)) _ s0 MongoError eq_refl).
  - discriminate.
  - intros [? _]. discriminate.
Defined.

(** ** Pages *)

Lemma pages_concat {A} (l : nat) (xs : list A) (n : nat) :
  concat ((λ k, take l (drop (k * l) xs)) <$> seq 0 n) = take (n * l) xs.
Proof.
  induction n as [|n IH]; [done|].
  rewrite seq_S, fmap_app, concat_app, IH. simpl. rewrite app_nil_r.
  by rewrite take_take_drop, Nat.add_comm.
Qed.

Lemma concat_fmap_pages {A B} (f : A → B) (g : nat → list A) (ks : list nat) :
  concat ((λ k, f <$> g k) <$> ks) = f <$> concat (g <$> ks).
Proof.
  induction ks as [|k ks IH]; [done|].
  rewrite !fmap_cons. simpl. by rewrite fmap_app, <- IH.
Qed.

Section pages.
Context `{Primitives}.

Lemma Api_list_positive (w : world) (req : Api.request) (s : db) :
  connection w = None → Api.method req = "GET" → Api.path req = "/api/recipes" →
  0 < Js.parseInt_or (Api.page req) 1 → 0 < Js.parseInt_or (Api.limit req) 10 →
  Api.handler w req s =
    (Api.Response 200
       (Api.Listing
          (Mongo.populate (users s) <$>
             take (Z.to_nat (Js.parseInt_or (Api.limit req) 10))
               (drop (Z.to_nat ((Js.parseInt_or (Api.page req) 1 - 1)
                                * Js.parseInt_or (Api.limit req) 10))
                  (Mongo.sort (recipes s))))
          (Js.parseInt_or (Api.page req) 1) (Js.parseInt_or (Api.limit req) 10)
          (Z.of_nat (length (recipes s)))
          (Js.ceil_div (Z.of_nat (length (recipes s))) (Js.parseInt_or (Api.limit req) 10))), s).
Proof.
  intros Hc Hm Hp Hpage Hlimit.
  unfold Api.handler, Api.route, Mongo.connect. rewrite Hc, Hm, Hp; simpl.
  unfold Api.list_recipes, Mongo.window.
  destruct (Z.ltb_spec ((Js.parseInt_or (Api.page req) 1 - 1)
                        * Js.parseInt_or (Api.limit req) 10) 0) as [Hneg|_]; [nia|].
  simpl. by rewrite Z.abs_eq by lia.
Qed.

(** X12. A page past the last one is answered 200 with an empty list, as
    long as the product of [page] and [limit] is within the integers that
    JavaScript numbers hold exactly. *)
Theorem Api_page_past_the_end (w : world) (req : Api.request) (s : db) (page limit pages : Z) :
  connection w = None → Api.method req = "GET" → Api.path req = "/api/recipes" →
  page = Js.parseInt_or (Api.page req) 1 →
  limit = Js.parseInt_or (Api.limit req) 10 →
  pages = Js.ceil_div (Z.of_nat (length (recipes s))) limit →
  0 < limit → 0 ≤ pages < page →
  page * limit ≤ Js.MAX_SAFE_INTEGER →
  Api.handler w req s
  = (Api.Response 200 (Api.Listing [] page limit (Z.of_nat (length (recipes s))) pages), s).
Proof.
  intros Hc Hm Hp -> -> -> Hlimit Hpast _.
  rewrite Api_list_positive by (done || lia).
  pose proof (ceil_div_spec (Z.of_nat (length (recipes s))) _ Hlimit) as Hceil.
  rewrite drop_ge; [by rewrite take_nil|].
  rewrite (Permutation_length (sort_perm (recipes s))). nia.
Qed.

(** When no two recipes were created at the same time there is one way to
    put them newest first. *)
Lemma newest_first_unique (l1 l2 : list Recipe.t) :
  NoDup (Recipe.createdAt <$> l1) → l1 ≡ₚ l2 →
  StronglySorted Mongo.newest_first l1 → StronglySorted Mongo.newest_first l2 →
  l1 = l2.
Proof.
  intros Hnodup Hperm H1 H2.
  apply (StronglySorted_unique_strong Mongo.newest_first); [|done..].
  intros x y Hx Hy Hxy Hyx.
  apply (NoDup_fmap_eq Recipe.createdAt l1); [done|done|by rewrite Hperm|].
  unfold Mongo.newest_first in *. lia.
Qed.

(** X13. The pages of a listing lose nothing and repeat nothing.  When no
    two stored recipes have the same [createdAt], so that the order newest
    first leaves no choice, and the numbers are within the integers that
    JavaScript holds exactly, the pages 1 to [pages], one after the other,
    are the whole collection newest first. *)
Theorem Api_pages_cover_the_collection (w : world) (req : nat → Api.request) (s : db)
    (limit : Z) (pages : nat) (sorted : list Recipe.t) :
  connection w = None →
  0 < limit →
  pages = Z.to_nat (Js.ceil_div (Z.of_nat (length (recipes s))) limit) →
  Z.of_nat pages * limit ≤ Js.MAX_SAFE_INTEGER →
  NoDup (Recipe.createdAt <$> recipes s) →
  (∀ k, (k < pages)%nat →
        Api.method (req k) = "GET" ∧ Api.path (req k) = "/api/recipes"
        ∧ Js.parseInt_or (Api.page (req k)) 1 = Z.of_nat (S k)
        ∧ Js.parseInt_or (Api.limit (req k)) 10 = limit) →
  sorted ≡ₚ recipes s →
  StronglySorted Mongo.newest_first sorted →
  concat ((λ k, Api.listed (Api.handler w (req k) s).1) <$> seq 0 pages)
  = Mongo.populate (users s) <$> sorted.
Proof.
  intros Hc Hlimit Hpages _ Hnodup Hreq Hperm Hsorted.
  assert (Mongo.sort (recipes s) = sorted) as <-.
  { apply newest_first_unique; [|by rewrite sort_perm|apply sort_sorted|done].
    by rewrite (sort_perm (recipes s)). }
  pose proof (ceil_div_spec (Z.of_nat (length (recipes s))) _ Hlimit) as Hceil.
  rewrite (list_fmap_ext _
             (λ k, Mongo.populate (users s) <$>
                     take (Z.to_nat limit) (drop (k * Z.to_nat limit) (Mongo.sort (recipes s))))).
  - rewrite concat_fmap_pages, pages_concat, take_ge; [done|].
    rewrite (Permutation_length (sort_perm (recipes s))). nia.
  - intros i k [-> Hk]%lookup_seq. simpl.
    destruct (Hreq i Hk) as (Hm & Hp & Hpage & Hlim).
    rewrite Api_list_positive by (done || lia). unfold Api.listed. simpl.
    rewrite Hpage, Hlim. do 3 f_equal. nia.
Qed.

End pages.

Lemma X12_witness :
  Api.handler (H:=table) w0 (Cases.page_of 6) s25
  = (Api.Response 200 (Api.Listing [] 7 10 25 3), s25).
Proof.
  apply (Api_page_past_the_end (H:=table) w0 (Cases.page_of 6) s25 7 10 3);
    try reflexivity; try lia. by vm_compute.
Defined.

Lemma X13_witness :
  concat ((λ k, Api.listed (Api.handler (H:=table) w0 (Cases.page_of k) s25).1) <$> seq 0 3)
  = Mongo.populate (users s25) <$> reverse (recipes s25).
Proof.
  apply (Api_pages_cover_the_collection (H:=table) w0 Cases.page_of s25 10 3).
  - reflexivity.
  - lia.
  - reflexivity.
  - by vm_compute.
  - apply (bool_decide_unpack _). by vm_compute.
  - intros [|[|[|k]]] Hk; [by vm_compute..|lia].
  - apply reverse_Permutation.
  - apply (bool_decide_unpack _). by vm_compute.
Defined.

(** ** The bearer token *)

Lemma split_without (sep : ascii) (s : string) :
  Js.includes sep s = false → Js.split sep s = [s].
Proof.
  induction s as [|c s IH]; simpl; [done|].
  destruct (Ascii.eqb c sep); [done|]. simpl. intros Hs. by rewrite IH.
Qed.

Lemma split_app (sep : ascii) (a b : string) :
  Js.includes sep a = false →
  Js.split sep (a ++ String sep b) = a :: Js.split sep b.
Proof.
  induction a as [|c a IH].
  - intros _. change (EmptyString ++ String sep b) with (String sep b).
    simpl. by rewrite Ascii.eqb_refl.
  - change (String c a ++ String sep b) with (String c (a ++ String sep b)). simpl.
    destruct (Ascii.eqb c sep); [done|]. simpl. intros Ha. by rewrite IH.
Qed.

(** X14. The token of a request is the second word of its [Authorization]
    header, split at single spaces, whatever the first word is: a header
    of one word, or with two spaces after the first word, carries no
    token, and what follows the second word is ignored. *)
Theorem bearer_is_the_second_word (scheme token rest : string) :
  Js.includes " " scheme = false →
  bearer (Some scheme) = None
  ∧ bearer (Some (scheme ++ String " " (String " " rest))) = None
  ∧ (Js.includes " " token = false → token ≠ EmptyString →
     bearer (Some (scheme ++ String " " token)) = Some token
     ∧ bearer (Some (scheme ++ String " " (token ++ String " " rest))) = Some token).
Proof.
  intros Hscheme. unfold bearer. simpl. split_and!.
  - by rewrite split_without.
  - by rewrite split_app.
  - intros Htoken Hne.
    assert (Js.truthy (Some token) = Some token) as Htruthy.
    { simpl. by apply String.eqb_neq in Hne as ->. }
    rewrite !split_app by done. rewrite split_without by done.
    change (Js.truthy (Some token) = Some token ∧ Js.truthy (Some token) = Some token).
    by rewrite Htruthy.
Qed.

Lemma X14_witness :
  bearer (Some "Basic") = None
  ∧ bearer (Some ("Basic" ++ String " " (String " " "alice.jwt"))) = None
  ∧ bearer (Some ("Basic" ++ String " " "alice.jwt")) = Some "alice.jwt"
  ∧ bearer (Some ("Basic" ++ String " " ("alice.jwt" ++ String " " "more"))) = Some "alice.jwt".
Proof.
  destruct (bearer_is_the_second_word "Basic" "alice.jwt" "more" eq_refl)
    as (Hone & Htwo & Hword).
  destruct (Hword eq_refl ltac:(discriminate)) as [Hexact Hmore].
  by split_and!.
Defined.

(** ** The in-memory application *)

Lemma strict_eq_other (v x : Json.t) :
  Json.strict_eq v v = false → Json.strict_eq x v = false.
Proof.
  unfold Json.strict_eq. destruct v; try done.
  - by destruct b.
  - by rewrite Z.eqb_refl.
  - by rewrite String.eqb_refl.
  - by destruct x.
  - by destruct x.
Qed.

Lemma list_find_insert_same {A} (P : A → Prop) `{∀ x, Decision (P x)}
    (l : list A) (k : nat) (x y : A) :
  list_find P l = Some (k, x) → P y → list_find P (<[k := y]> l) = Some (k, y).
Proof.
  revert k. induction l as [|z l IH]; intros k; [done|].
  simpl. case_decide as Hz.
  - intros [= <- <-] Hy. simpl. by rewrite decide_True.
  - destruct (list_find P l) as [[j a]|] eqn:E; simpl; [|done].
    intros [= <- <-] Hy. simpl. rewrite decide_False by done.
    by rewrite (IH j eq_refl Hy).
Qed.

Lemma Json_get_spread (k : string) (a b : Json.obj) :
  NoDup b.*1 →
  Json.get k (Json.spread a b) = if decide (k ∈ b.*1) then Json.get k b else Json.get k a.
Proof.
  unfold Json.spread. revert a. induction b as [|[k0 v0] b IH]; intros a Hnodup; [done|].
  apply NoDup_cons in Hnodup as [Hk0 Hnodup]. simpl. rewrite IH by done.
  destruct (decide (k = k0)) as [->|Hne].
  - rewrite decide_False by done. rewrite decide_True by left.
    rewrite Json_get_set. unfold Json.get. simpl. by rewrite String.eqb_refl.
  - rewrite Json_get_set_ne by done.
    assert (Json.get k ((k0, v0) :: b) = Json.get k b) as ->.
    { unfold Json.get. simpl.
      by assert (String.eqb k0 k = false) as -> by (apply String.eqb_neq; congruence). }
    destruct (decide (k ∈ b.*1)).
    + by rewrite decide_True by by right.
    + rewrite decide_False; [done|]. by intros [?|?]%elem_of_cons.
Qed.

Lemma find_never {A} (P : A → bool) (l : list A) :
  (∀ x, P x = false) → List.find P l = None.
Proof. intros HP. induction l as [|x l IH]; [done|]. simpl. by rewrite HP. Qed.

Section in_memory.
Context `{Primitives}.

(** X15. In the in-memory application, registering and then logging in
    with the same body succeeds when the name and the password are values
    equal to themselves under [===] (strings, numbers, booleans, [null],
    [undefined]), and a second registration under that name is refused. *)
Theorem Mem_register_then_login (w w' : world) (req : Mem.request) (s : Mem.state) :
  Json.strict_eq (Json.get "username" (Mem.body req)) (Json.get "username" (Mem.body req)) = true →
  Json.strict_eq (Json.get "password" (Mem.body req)) (Json.get "password" (Mem.body req)) = true →
  List.find (λ u, Json.strict_eq (Json.get "username" u) (Json.get "username" (Mem.body req)))
            (Mem.users s) = None →
  Mem.status (Mem.register w req s).1 = 201
  ∧ Mem.login w' req (Mem.register w req s).2
    = (Mem.Response 200
         (Some (Json.Obj [("token",
                           Json.Str (jwt_sign [("username", Json.get "username" (Mem.body req))]
                                              (now w') "1h"))])),
       (Mem.register w req s).2)
  ∧ Mem.register w' req (Mem.register w req s).2
    = (Mem.Response 400 (Mem.error "Username already exists"), (Mem.register w req s).2).
Proof.
  intros Hname Hpass Hfree.
  set (u := [("username", Json.get "username" (Mem.body req));
             ("password", Json.get "password" (Mem.body req))]).
  assert (Mem.register w req s
          = (Mem.Response 201
               (Some (Json.Obj [("token",
                  Json.Str (Mem.generateToken w
                              [("username", Json.get "username" (Mem.body req))]))])),
             Mem.State (Mem.users s ++ [u])%list (Mem.recipes s))) as ->
    by (unfold Mem.register; by rewrite Hfree).
  assert (In u (Mem.users s ++ [u])%list) as Hin
    by (apply list_elem_of_In, elem_of_app; right; by left).
  cbn [fst snd Mem.status]. split_and!; [done| |].
  - unfold Mem.login, Mem.generateToken. cbn [Mem.users].
    destruct (List.find _ (Mem.users s ++ [u])%list) eqn:E; [done|].
    apply (find_none _ _ E) in Hin. unfold u, Json.get in Hin. simpl in Hin.
    fold (Json.get "username" (Mem.body req)) in Hin.
    fold (Json.get "password" (Mem.body req)) in Hin.
    by rewrite Hname, Hpass in Hin.
  - unfold Mem.register. cbn [Mem.users].
    destruct (List.find _ (Mem.users s ++ [u])%list) eqn:E; [done|].
    apply (find_none _ _ E) in Hin. unfold u, Json.get in Hin. simpl in Hin.
    fold (Json.get "username" (Mem.body req)) in Hin.
    by rewrite Hname in Hin.
Qed.

(** X16. A body whose [username] is an array or an object (a value that
    is not [===] to itself once parsed again) is always registered, also a
    second time, and never logs in. *)
Theorem Mem_compound_username (w : world) (req : Mem.request) (s : Mem.state) :
  Json.strict_eq (Json.get "username" (Mem.body req)) (Json.get "username" (Mem.body req)) = false →
  Mem.status (Mem.register w req s).1 = 201
  ∧ length (Mem.users (Mem.register w req s).2) = S (length (Mem.users s))
  ∧ Mem.login w req s = (Mem.Response 401 (Mem.error "Invalid credentials"), s).
Proof.
  intros Hname. unfold Mem.register, Mem.login.
  rewrite !find_never; [|intros u; by rewrite (strict_eq_other _ _ Hname)..].
  split_and!; [done| |done]. cbn [snd Mem.users]. rewrite length_app. simpl. lia.
Qed.

End in_memory.

Lemma X15_witness :
  Mem.status (Mem.register (H:=table) w0 (Mem.Request None "0" (credentials "carol" "secret1")) m0).1
  = 201
  ∧ Mem.login (H:=table) w0 (Mem.Request None "0" (credentials "carol" "secret1"))
      (Mem.register (H:=table) w0 (Mem.Request None "0" (credentials "carol" "secret1")) m0).2
    = (Mem.Response 200 (Some (Json.Obj [("token", Json.Str "carol.jwt")])),
       (Mem.register (H:=table) w0 (Mem.Request None "0" (credentials "carol" "secret1")) m0).2)
  ∧ Mem.register (H:=table) w0 (Mem.Request None "0" (credentials "carol" "secret1"))
      (Mem.register (H:=table) w0 (Mem.Request None "0" (credentials "carol" "secret1")) m0).2
    = (Mem.Response 400 (Mem.error "Username already exists"),
       (Mem.register (H:=table) w0 (Mem.Request None "0" (credentials "carol" "secret1")) m0).2).
Proof.
  by apply (Mem_register_then_login (H:=table) w0 w0
              (Mem.Request None "0" (credentials "carol" "secret1")) m0).
Defined.

Lemma X16_witness :
  Mem.status (Mem.register (H:=table) w0
                (Mem.Request None "0" [("username", Json.Arr [Json.Str "carol"])]) m0).1 = 201
  ∧ length (Mem.users (Mem.register (H:=table) w0
                         (Mem.Request None "0" [("username", Json.Arr [Json.Str "carol"])]) m0).2)
    = S (length (Mem.users m0))
  ∧ Mem.login (H:=table) w0 (Mem.Request None "0" [("username", Json.Arr [Json.Str "carol"])]) m0
    = (Mem.Response 401 (Mem.error "Invalid credentials"), m0).
Proof.
  by apply (Mem_compound_username (H:=table) w0
              (Mem.Request None "0" [("username", Json.Arr [Json.Str "carol"])]) m0).
Defined.

Section in_memory_records.
Context `{Primitives}.

(** X17. The owner's update in the in-memory application keeps the record
    at its place under the same identifier: whatever [id] the body gives,
    the stored [id] is the one of the path, every other key of the body is
    written over the record, every key the body does not have is kept, and
    the record is still the one found under that identifier. *)
Theorem Mem_update_keeps_the_identifier (w : world) (req : Mem.request) (s : Mem.state)
    token user k recipe :
  bearer (Mem.authorization req) = Some token →
  jwt_verify token (now w) = Verified user →
  Mem.findIndex (Mem.id req) (Mem.recipes s) = Some (k, recipe) →
  Json.strict_eq (Json.get "createdBy" recipe) (Json.get "username" user) = true →
  NoDup (Mem.body req).*1 →
  ∃ updated,
    (Mem.put_recipe w req s).1 = Mem.Response 200 (Some (Json.Obj updated))
    ∧ Mem.recipes (Mem.put_recipe w req s).2 = <[k := updated]> (Mem.recipes s)
    ∧ Mem.findIndex (Mem.id req) (Mem.recipes (Mem.put_recipe w req s).2) = Some (k, updated)
    ∧ Json.get "id" updated = Json.Str (Mem.id req)
    ∧ ∀ key, key ≠ "id" →
        Json.get key updated
        = if decide (key ∈ (Mem.body req).*1) then Json.get key (Mem.body req)
          else Json.get key recipe.
Proof.
  intros Hb Hv Hf Hown Hnodup.
  exists (Json.set "id" (Json.Str (Mem.id req)) (Json.spread recipe (Mem.body req))).
  unfold Mem.put_recipe, Mem.authenticateToken. rewrite Hb, Hv, Hf, Hown. cbn [negb fst snd].
  split_and!; [done|done| | |].
  - cbn [Mem.recipes]. apply (list_find_insert_same _ _ _ recipe); [done|].
    rewrite Json_get_set. unfold Json.strict_eq. apply String.eqb_refl.
  - apply Json_get_set.
  - intros key Hkey. by rewrite Json_get_set_ne, Json_get_spread.
Qed.

(** X18. A review that has been posted is read back.  Any user with a
    token that verifies can review any recipe whose [reviews] are absent
    (or falsy) or an array: the post is answered 201, and the reviews of
    that recipe are then the earlier ones followed by the new one, which
    carries the [username] of the token. *)
Theorem Mem_review_then_read (w : world) (req req' : Mem.request) (s : Mem.state)
    token user k recipe items :
  bearer (Mem.authorization req) = Some token →
  jwt_verify token (now w) = Verified user →
  Mem.findIndex (Mem.id req) (Mem.recipes s) = Some (k, recipe) →
  (Json.truthy (Json.get "reviews" recipe) = false ∧ items = [])
  ∨ Json.get "reviews" recipe = Json.Arr items →
  Mem.id req' = Mem.id req →
  (Mem.post_review w req s).1
  = Mem.Response 201 (Some (Json.Obj [("message", Json.Str "Review added successfully")]))
  ∧ (Mem.get_reviews req' (Mem.post_review w req s).2).1
    = Mem.Response 200
        (Some (Json.Arr (items ++ [Json.Obj [("id", Json.Str (Js.toString (now w)));
                                             ("rating", Json.get "rating" (Mem.body req));
                                             ("comment", Json.get "comment" (Mem.body req));
                                             ("user", Json.get "username" user)]]))).
Proof.
  intros Hb Hv Hf Hreviews Hid.
  unfold Mem.post_review, Mem.authenticateToken. rewrite Hb, Hv, Hf.
  assert ((if Json.truthy (Json.get "reviews" recipe) then Json.get "reviews" recipe
           else Json.Arr []) = Json.Arr items) as ->.
  { destruct Hreviews as [[Hfalsy Hitems]|Harr].
    - by rewrite Hfalsy, Hitems.
    - by rewrite Harr. }
  cbn [fst snd]. split; [done|].
  unfold Mem.get_reviews, Mem.findIndex in *. rewrite Hid. cbn [Mem.recipes].
  erewrite (list_find_insert_same _ _ _ recipe); [|done|].
  - by rewrite Json_get_set.
  - rewrite Json_get_set_ne by done. by apply list_find_Some in Hf as (_ & ? & _).
Qed.

(** X19. Posting a review changes nothing but reviews: after any request
    to post a review, every recipe has the value it had under every key
    other than [reviews], its [id] and its [createdBy] among them, and the
    users are as before. *)
Theorem Mem_review_changes_reviews_only (w : world) (req : Mem.request) (s : Mem.state)
    (key : string) :
  key ≠ "reviews" →
  Json.get key <$> Mem.recipes (Mem.post_review w req s).2 = Json.get key <$> Mem.recipes s
  ∧ Mem.users (Mem.post_review w req s).2 = Mem.users s.
Proof.
  intros Hkey. unfold Mem.post_review, Mem.authenticateToken.
  destruct (bearer _) as [token|]; [|done].
  destruct (jwt_verify _ _) as [user| |]; [|done..].
  destruct (Mem.findIndex _ _) as [[k recipe]|] eqn:Hf; [|done].
  apply list_find_Some in Hf as (Hk & _ & _).
  destruct (if Json.truthy _ then _ else _); try done.
  cbn [snd Mem.recipes Mem.users]. split; [|done].
  rewrite list_fmap_insert, Json_get_set_ne by done.
  apply list_insert_id. by rewrite list_lookup_fmap, Hk.
Qed.

End in_memory_records.

Lemma X17_witness :
  ∃ updated,
    (Mem.put_recipe (H:=table) w0
       (mem_tea "alice" [("id", Json.Str "999"); ("title", Json.Str "Chai")]) m0).1
    = Mem.Response 200 (Some (Json.Obj updated))
    ∧ Json.get "id" updated = Json.Str "1690000000000"
    ∧ Json.get "title" updated = Json.Str "Chai"
    ∧ Json.get "createdBy" updated = Json.Str "alice".
Proof.
  destruct (Mem_update_keeps_the_identifier (H:=table) w0
              (mem_tea "alice" [("id", Json.Str "999"); ("title", Json.Str "Chai")]) m0
              "alice.jwt" alice_claims 0%nat m_tea eq_refl eq_refl eq_refl eq_refl)
    as (updated & Hres & _ & _ & Hid & Hkeys).
  { apply (bool_decide_unpack _). by vm_compute. }
  exists updated. split_and!; [done|done| |].
  - by rewrite (Hkeys "title").
  - by rewrite (Hkeys "createdBy").
Defined.

Lemma X18_witness :
  (Mem.post_review (H:=table) w0
     (mem_tea "bob" [("rating", Json.Num 5); ("comment", Json.Str "Nice")]) m0).1
  = Mem.Response 201 (Some (Json.Obj [("message", Json.Str "Review added successfully")]))
  ∧ (Mem.get_reviews (mem_tea "alice" [])
       (Mem.post_review (H:=table) w0
          (mem_tea "bob" [("rating", Json.Num 5); ("comment", Json.Str "Nice")]) m0).2).1
    = Mem.Response 200
        (Some (Json.Arr [Json.Obj [("id", Json.Str "1700000000000"); ("rating", Json.Num 5);
                                   ("comment", Json.Str "Nice"); ("user", Json.Str "bob")]])).
Proof.
  apply (Mem_review_then_read (H:=table) w0
           (mem_tea "bob" [("rating", Json.Num 5); ("comment", Json.Str "Nice")])
           (mem_tea "alice" []) m0 "bob.jwt" bob_claims 0%nat m_tea []);
    try reflexivity.
  by left.
Defined.

Lemma X19_witness :
  Json.get "createdBy" <$> Mem.recipes
    (Mem.post_review (H:=table) w0
       (mem_tea "bob" [("createdBy", Json.Str "bob"); ("comment", Json.Str "Mine")]) m0).2
  = Json.get "createdBy" <$> Mem.recipes m0
  ∧ Mem.users
      (Mem.post_review (H:=table) w0
         (mem_tea "bob" [("createdBy", Json.Str "bob"); ("comment", Json.Str "Mine")]) m0).2
    = Mem.users m0.
Proof. by apply (Mem_review_changes_reviews_only (H:=table)). Defined.

(** ** The one-file-per-route functions *)


Section functions.
Context `{Primitives}.


(** X21. With the register and login functions, registering and then
    logging in with the same body succeeds when the hash library accepts
    the password it has hashed: the token is signed for the [id] of the new
    user. *)
Theorem Fn_register_then_login (w w' : world) (req : Fn.request) (s : Fn.store) name pass :
  connection w = None → connection w' = None →
  Fn.method req = "POST" →
  Js.truthy (Body.username (Fn.body req)) = Some name →
  Js.truthy (Body.password (Fn.body req)) = Some pass →
  Mongo.findOne name (Fn.users s) = None →
  bcrypt_compare pass (bcrypt_hash pass 10 (salt w)) = true →
  ∃ s', Fn.register w req s = inr (Fn.Response 200 (Fn.Message "User registered"), s')
    ∧ Fn.login w' req s'
      = inr (Fn.Response 200 (Fn.Token (jwt_sign [("id", Json.Str (fresh w))] (now w') "1h")),
             s').
Proof.
  intros Hc Hc' Hm Hn Hp Hfree Hcmp.
  assert (Body.username (Fn.body req) = Some name) as Hn'.
  { destruct (Body.username _) as [u|]; [|done]. simpl in Hn. by case_match; simplify_eq. }
  assert (Body.password (Fn.body req) = Some pass) as Hp'.
  { destruct (Body.password _) as [u|]; [|done]. simpl in Hp. by case_match; simplify_eq. }
  eexists. split.
  - by apply Fn_register_stores_hash.
  - unfold Fn.login, Fn.compare, Fn.dbConnect, Mongo.connect. rewrite Hc', Hm, Hn', Hp'. simpl.
    rewrite (findOne_app_new name (Fn.users s)) by done. simpl. by rewrite Hcmp.
Qed.

End functions.


Lemma X21_witness :
  ∃ s', Fn.register (H:=table) w0 (Fn.Request "POST" None (sign_in "carol" "abc")) f0
        = inr (Fn.Response 200 (Fn.Message "User registered"), s')
    ∧ Fn.login (H:=table) w0 (Fn.Request "POST" None (sign_in "carol" "abc")) s'
      = inr (Fn.Response 200 (Fn.Token "cccccccccccccccccccccccc.jwt"), s').
Proof.
  by apply (Fn_register_then_login (H:=table) w0 w0 _ f0 "carol" "abc").
Defined.

(** ** The recipes of one user, and the two MongoDB variants side by side *)

(** X22. The recipes of a user, as the stand-alone server lists them, are
    the stored recipes whose [createdBy] is the identifier in the path, all
    of them and no others, newest first. *)
Theorem Server_user_recipes (userId : string) (s : db) (owner : string) :
  ObjectId.cast userId = Some owner →
  ∃ found,
    Server.user_recipes userId s = (200, Server.Recipes (Mongo.populate (users s) <$> found))
    ∧ found ≡ₚ filter (λ r, Recipe.createdBy r = Some owner) (recipes s)
    ∧ StronglySorted Mongo.newest_first found
    ∧ ∀ r, r ∈ found ↔ r ∈ recipes s ∧ Recipe.createdBy r = Some owner.
Proof.
  unfold Server.user_recipes, Mongo.reference.
  intros ->. eexists. split_and!; [reflexivity|apply sort_perm|apply sort_sorted|].
  intros r. rewrite (sort_perm _). by rewrite list_elem_of_filter, (comm and).
Qed.

Lemma X22_witness :
  ∃ found,
    Server.user_recipes alice_id s0 = (200, Server.Recipes (Mongo.populate (users s0) <$> found))
    ∧ found ≡ₚ filter (λ r, Recipe.createdBy r = Some alice_id) (recipes s0)
    ∧ StronglySorted Mongo.newest_first found
    ∧ ∀ r, r ∈ found ↔ r ∈ recipes s0 ∧ Recipe.createdBy r = Some alice_id.
Proof. by apply (Server_user_recipes alice_id s0 alice_id). Defined.

Section side_by_side.
Context `{Primitives}.

(** X23. With the database reachable, the Express application and the
    serverless handler answer reads alike: the same answer for the recipe
    under a path segment, found, absent or malformed, and the same answer
    for a page of the listing when [page] and [limit] are positive. *)
Theorem Express_reads_as_Api (w : world) (s : db) :
  connection w = None →
  (∀ i a a' b b' pg l,
     Js.includes "/" i = false →
     Express.get_recipe w (Express.Request a i b) s
     = Api.handler w (Api.Request "GET" ("/api/recipes/" ++ i) a' pg l b') s)
  ∧ (∀ page limit a b,
       0 < Js.parseInt_or page 1 → 0 < Js.parseInt_or limit 10 →
       Express.get_recipes w page limit s
       = Api.handler w (Api.Request "GET" "/api/recipes" a page limit b) s).
Proof.
  intros Hc. split.
  - intros i a a' b b' pg l Hi.
    rewrite Api_route_get; [|done|done|apply prefix_path].
    unfold Express.get_recipe, Api.get_recipe, Express.try, Mongo.connect.
    rewrite Hc. cbn [bind Express.id Api.path].
    assert (Api.valid_id ("/api/recipes/" ++ i)
            = if ObjectId.isValid i then Some i else None) as ->.
    { unfold Api.valid_id.
      assert (Js.split "/" ("/api/recipes/" ++ i) = [EmptyString; "api"; "recipes"; i]) as ->;
        [|done].
      pose proof (split_without "/" i Hi) as Hsplit.
      simpl. change (EmptyString ++ i) with i. by rewrite Hsplit. }
    unfold ObjectId.isValid, Mongo.findById.
    destruct (ObjectId.cast i) as [o|] eqn:Hcast; [|done]. simpl.
    unfold Mongo.findById. rewrite Hcast. simpl.
    by destruct (Mongo.index_of o (recipes s)) as [[k r]|].
  - intros page limit a b Hpage Hlimit.
    rewrite Api_list_positive by done.
    unfold Express.get_recipes, Express.try, Mongo.connect, Mongo.window. rewrite Hc. simpl.
    destruct (Z.ltb_spec ((Js.parseInt_or page 1 - 1) * Js.parseInt_or limit 10) 0); [nia|].
    simpl. by rewrite Z.abs_eq by lia.
Qed.

End side_by_side.

Lemma X23_witness :
  Express.get_recipe w0 (Express.Request None "not-an-id" Body.empty) s0
  = Api.handler (H:=table) w0
      (Api.Request "GET" ("/api/recipes/" ++ "not-an-id") (Some "Bearer bob.jwt") None None
                   Body.empty) s0
  ∧ Express.get_recipes w0 (Some "3") None s25
    = Api.handler (H:=table) w0 (Api.Request "GET" "/api/recipes" None (Some "3") None Body.empty)
        s25.
Proof.
  destruct (Express_reads_as_Api (H:=table) w0 s0 eq_refl) as [Hone _].
  destruct (Express_reads_as_Api (H:=table) w0 s25 eq_refl) as [_ Hlist].
  split; [by apply Hone|by apply Hlist].
Defined.

(** ** Identifiers taken from the clock *)

Section clock.
Context `{Primitives}.

(** X24. In the in-memory application the identifier of a recipe is the
    time of its creation in milliseconds.  Two recipes created in the same
    millisecond get the same identifier; both are stored, and the routes
    that look a recipe up by identifier find the first of them. *)
Theorem Mem_same_millisecond (w : world) (first second : Mem.request) (s : Mem.state)
    token user token' user' :
  bearer (Mem.authorization first) = Some token →
  jwt_verify token (now w) = Verified user →
  bearer (Mem.authorization second) = Some token' →
  jwt_verify token' (now w) = Verified user' →
  Mem.findIndex (Js.toString (now w)) (Mem.recipes s) = None →
  ∃ a b,
    Mem.recipes (Mem.post_recipe w second (Mem.post_recipe w first s).2).2
    = (Mem.recipes s ++ [a; b])%list
    ∧ Json.get "id" a = Json.Str (Js.toString (now w))
    ∧ Json.get "id" b = Json.Str (Js.toString (now w))
    ∧ Json.get "title" a = Json.get "title" (Mem.body first)
    ∧ Json.get "title" b = Json.get "title" (Mem.body second)
    ∧ Mem.findIndex (Js.toString (now w))
        (Mem.recipes (Mem.post_recipe w second (Mem.post_recipe w first s).2).2)
      = Some (length (Mem.recipes s), a).
Proof.
  intros Hb Hv Hb' Hv' Hfree.
  unfold Mem.post_recipe, Mem.authenticateToken. rewrite Hb, Hv. cbn [snd].
  rewrite Hb', Hv'. cbn [snd Mem.recipes].
  eexists _, _. rewrite <- (assoc app). split_and!; [reflexivity|reflexivity..|].
  unfold Mem.findIndex in *. rewrite list_find_app_r by done.
  simpl. rewrite decide_True; [done|].
  unfold Json.get. simpl. unfold Json.strict_eq. apply String.eqb_refl.
Qed.

End clock.

Lemma X24_witness :
  ∃ a b,
    Mem.recipes
      (Mem.post_recipe (H:=table) w0
         (Mem.Request (Some "Bearer bob.jwt") "0" [("title", Json.Str "Soup")])
         (Mem.post_recipe (H:=table) w0
            (Mem.Request (Some "Bearer alice.jwt") "0" [("title", Json.Str "Chai")]) m0).2).2
    = (Mem.recipes m0 ++ [a; b])%list
    ∧ Json.get "id" a = Json.Str "1700000000000"
    ∧ Json.get "id" b = Json.Str "1700000000000"
    ∧ Json.get "title" a = Json.Str "Chai"
    ∧ Json.get "title" b = Json.Str "Soup"
    ∧ Mem.findIndex "1700000000000"
        (Mem.recipes
           (Mem.post_recipe (H:=table) w0
              (Mem.Request (Some "Bearer bob.jwt") "0" [("title", Json.Str "Soup")])
              (Mem.post_recipe (H:=table) w0
                 (Mem.Request (Some "Bearer alice.jwt") "0" [("title", Json.Str "Chai")]) m0).2).2)
      = Some (1%nat, a).
Proof.
  by apply (Mem_same_millisecond (H:=table) w0
              (Mem.Request (Some "Bearer alice.jwt") "0" [("title", Json.Str "Chai")])
              (Mem.Request (Some "Bearer bob.jwt") "0" [("title", Json.Str "Soup")]) m0
              "alice.jwt" alice_claims "bob.jwt" bob_claims).
Defined.

(** ** Without a token, and in the Express application *)

Section tokens.
Context `{Primitives}.

(** X25. Without a token that verifies, no request to the serverless
    handler changes the recipes. *)
Theorem Api_no_token_no_change (w : world) (req : Api.request) (s : db) (e : exn) :
  Api.authenticateToken w req = inl e →
  recipes (Api.handler w req s).2 = recipes s.
Proof.
  intros Ha. unfold Api.handler. case_match; [done|].
  destruct (Api.route w req s) as [e'|[res s']] eqn:E; [done|]. simpl.
  unfold Api.route in E. repeat case_match; simplify_eq; try done.
  all: unfold bind in E; destruct (Mongo.connect w) as [|[]]; [done|].
  all: repeat case_match; simplify_eq; try done.
  - unfold Api.register in E. repeat case_match; by simplify_eq.
  - unfold Api.login in E. repeat case_match; by simplify_eq.
  - unfold Api.list_recipes, bind in E. repeat case_match; by simplify_eq.
  - unfold Api.create, bind in E. by rewrite Ha in E.
  - unfold Api.get_recipe, bind in E. repeat case_match; by simplify_eq.
  - unfold Api.update, bind in E. by rewrite Ha in E.
  - unfold Api.delete_recipe, bind in E. by rewrite Ha in E.
Qed.

(** X26. In the Express application an update or a delete leaves every
    recipe in place whose [createdBy] is not the [userId] of the verified
    token. *)
Theorem Express_recipes_of_others_persist (w : world) (req : Express.request) (s : db)
    (r : Recipe.t) :
  r ∈ recipes s →
  (∀ token user c, bearer (Express.authorization req) = Some token →
                   jwt_verify token (now w) = Verified user →
                   Recipe.createdBy r = Some c → Json.get "userId" user ≠ Json.Str c) →
  r ∈ recipes (Express.put_recipe w req s).2 ∧ r ∈ recipes (Express.delete_recipe w req s).2.
Proof.
  intros Hr Hforeign.
  unfold Express.put_recipe, Express.delete_recipe, Express.authenticateToken.
  destruct (bearer _) as [token|]; [|done].
  destruct (jwt_verify token (now w)) as [user| |] eqn:Hv; [|done..].
  specialize (Hforeign token user).
  unfold Express.try, bind, Api.owner_string.
  destruct (Mongo.connect w) as [|[]]; [done|].
  destruct (Mongo.findById _ _) as [|[recipe|]] eqn:Hf; [done| |done].
  destruct (Recipe.createdBy recipe) as [owner|] eqn:Ho; [|done].
  destruct (negb _) eqn:Heq; [done|].
  apply negb_false_iff, strict_eq_Str in Heq.
  assert (r ≠ recipe) as Hne by (intros ->; by eapply Hforeign).
  destruct (findById_Some _ _ _ Hf) as (o & k & Hcast & Hidx & Hk).
  unfold Mongo.findByIdAndUpdate, Mongo.findByIdAndDelete, bind. rewrite Hcast, Hidx.
  split.
  - repeat case_match; simplify_eq; simpl; try done; by eapply elem_of_insert_other.
  - simpl. by eapply elem_of_delete_other.
Qed.

End tokens.

Lemma X25_witness :
  recipes (Api.handler (H:=table) w0 (delete_tea "old") s0).2 = recipes s0.
Proof. by apply (Api_no_token_no_change (H:=table) w0 _ s0 (Error "Invalid token")). Defined.

Lemma X26_witness :
  tea ∈ recipes (Express.put_recipe (H:=table) w0
                   (Express.Request (Some "Bearer bob.jwt") tea_id (just "Mud")) s0).2
  ∧ tea ∈ recipes (Express.delete_recipe (H:=table) w0
                     (Express.Request (Some "Bearer bob.jwt") tea_id (just "Mud")) s0).2.
Proof.
  apply (Express_recipes_of_others_persist (H:=table) w0 _ s0 tea).
  - by apply list_elem_of_singleton.
  - intros token user c [= <-] [= <-] [= <-]. discriminate.
Defined.
